(** * piccolo/query/base.py: Query, FrozenQuery

    A shallow embedding of the query execution core of Piccolo
    ([Query.querystrings], [Query._process_results], [Query.run],
    [Query.run_sync], [Query.freeze] and [FrozenQuery]) and the properties
    its specification states about them. *)

From Stdlib Require Import String Ascii List ZArith Bool Arith Lia.
Import ListNotations.
Open Scope string_scope.
Open Scope list_scope.

Set Implicit Arguments.
Set Warnings "-register-all".

(** ** Python values and exceptions *)

(** The exception classes the module raises or catches.  Anything else a
    hook may raise is an [OtherError] tagged with its class name. *)
Inductive ExcClass : Type :=
| ValueError
| NotImplementedError
| AttributeError
| TypeError
| IndexError
| Exception_
| OtherError (name : string).

Record Exn : Type := mkExn { exc_class : ExcClass; exc_msg : string }.

Inductive Result (A : Type) : Type :=
| Ok (a : A)
| Raise (e : Exn).
Arguments Ok {A} a.
Arguments Raise {A} e.

Definition rbind {A B} (r : Result A) (k : A -> Result B) : Result B :=
  match r with
  | Ok a => k a
  | Raise e => Raise e
  end.

(** The values that travel through result shaping: driver scalars, lists,
    insertion-ordered dicts with string keys, table-model instances and
    [None]. *)
Inductive PyVal : Type :=
| VNone
| VInt (z : Z)
| VStr (s : string)
| VList (l : list PyVal)
| VDict (d : list (string * PyVal))
| VObj (cls : string) (attrs : list (string * PyVal)).

(** [piccolo.querystring.QueryString]: a template and its bind values. *)
Record QueryString : Type := mkQueryString {
  template : string;
  args : list PyVal
}.

(** A row record as the driver returns it: the columns in order.  Only
    [keys()] and [values()] are used on it. *)
Definition Row : Type := list (string * PyVal).
Definition keys (r : Row) : list string := map fst r.
Definition values (r : Row) : list PyVal := map snd r.

(** [str.replace(old, new)] for one-character [old] and [new]. *)
Fixpoint replace (old new : ascii) (s : string) : string :=
  match s with
  | EmptyString => EmptyString
  | String c rest =>
      String (if Ascii.eqb c old then new else c) (replace old new rest)
  end.

(** [d[k] = v] on an insertion-ordered dict: an existing key keeps its
    position and takes the new value, a new key goes last. *)
Fixpoint dict_set (d : list (string * PyVal)) (k : string) (v : PyVal)
  : list (string * PyVal) :=
  match d with
  | [] => [(k, v)]
  | (k', v') :: rest =>
      if String.eqb k' k then (k', v) :: rest
      else (k', v') :: dict_set rest k v
  end.

(** [dict(zip(ks, vs))]: [zip] stops at the shorter sequence. *)
Definition dict_zip (ks : list string) (vs : list PyVal)
  : list (string * PyVal) :=
  fold_left (fun d kv => dict_set d (fst kv) (snd kv)) (combine ks vs) [].

(** ** Effects

    [run] is a coroutine that talks to the engine.  A computation takes the
    world (the database and whatever else the hooks touch) and returns a
    result or an exception, the new world, and the trace of what it asked
    of the outside: the [run_querystring] calls, in order, and what [Timer]
    printed. *)
Inductive Event : Type :=
| EvRunQuerystring (querystring : QueryString) (in_pool : bool)
| EvPrintDuration.

Section Core.

Context {W : Type}.

(** A hook, or an engine operation: world in, result and world out. *)
Definition Eff (A : Type) : Type := W -> Result A * W.

#[projections(primitive)]
Record Outcome (A : Type) : Type := mkOutcome {
  result : Result A;
  world : W;
  trace : list Event
}.

Definition M (A : Type) : Type := W -> Outcome A.

Definition ret {A} (a : A) : M A := fun w => mkOutcome (Ok a) w [].

Definition raise {A} (e : Exn) : M A := fun w => mkOutcome (Raise e) w [].

Definition bind {A B} (m : M A) (k : A -> M B) : M B :=
  fun w =>
    let o := m w in
    match result o with
    | Ok a =>
        let o' := k a (world o) in
        mkOutcome (result o') (world o') (trace o ++ trace o')
    | Raise e => mkOutcome (Raise e) (world o) (trace o)
    end.

Definition lift {A} (f : Eff A) : M A :=
  fun w => let (r, w') := f w in mkOutcome r w' [].

Definition liftR {A} (r : Result A) : M A :=
  fun w => mkOutcome r w [].

Definition emit (e : Event) : M unit := fun w => mkOutcome (Ok tt) w [e].

(** [try: body finally: handler]: the handler runs on both exits and the
    exit of the body stands. *)
Definition finally {A} (m : M A) (h : M unit) : M A :=
  fun w =>
    let o := m w in
    let o' := h (world o) in
    match result o' with
    | Ok _ => mkOutcome (result o) (world o') (trace o ++ trace o')
    | Raise e => mkOutcome (Raise e) (world o') (trace o ++ trace o')
    end.

End Core.

Arguments Eff W A : clear implicits.
Arguments Outcome W A : clear implicits.
Arguments M W A : clear implicits.

Declare Scope py_scope.
Delimit Scope py_scope with py.
Notation "x <- m ;; k" := (bind m (fun x => k))
  (at level 61, m at next level, right associativity) : py_scope.
Notation "m ;;; k" := (bind m (fun _ => k))
  (at level 61, right associativity) : py_scope.
Notation "x <-? r ;; k" := (rbind r (fun x => k))
  (at level 61, r at next level, right associativity) : py_scope.
Open Scope py_scope.

(** ** The data model *)

(** The engine boundary: a dialect tag and [run_querystring].  Its
    results depend on the state of the database, which it may change. *)
Record Engine (W : Type) : Type := mkEngine {
  engine_type : string;
  run_querystring : QueryString -> bool -> Eff W (list Row)
}.

(** [table._meta]: the display name and the bound engine, if any. *)
Record TableMeta (W : Type) : Type := mkTableMeta {
  tablename : string;
  db : option (Engine W)
}.

(** A table class.  [construct] is the call of the class with a row's
    columns as keyword arguments, which builds a model instance or raises. *)
Record Table (W : Type) : Type := mkTable {
  _meta : TableMeta W;
  construct : list (string * PyVal) -> Result PyVal
}.

Record Output : Type := mkOutput {
  as_json : bool;
  as_list : bool;
  as_objects : bool
}.

Record OutputDelegate : Type := mkOutputDelegate { _output : Output }.

(** What an instance of [Query] or of one of its subclasses carries:
    the two slots of the base class, the [output_delegate] attribute that
    [_process_results] looks for with [getattr], and the clause state of the
    concrete subclass. *)
Record Instance (W Clauses : Type) : Type := mkInstance {
  table : Table W;
  _frozen_querystrings : option (list QueryString);
  output_delegate : option OutputDelegate;
  clauses : Clauses
}.

(** A class: [Query] itself, or a subclass that overrides some of its
    methods.  [run_callback] is optional ([hasattr]); [methods] lists the
    names of the further attributes the class defines (the clause builders
    of a concrete query). *)
Record QueryClass (W Clauses : Type) : Type := mkQueryClass {
  __init__ : Table W -> option (list QueryString) -> Instance W Clauses;
  _validate : Instance W Clauses -> Eff W unit;
  response_handler : Instance W Clauses -> PyVal -> Eff W PyVal;
  run_callback :
    option (Instance W Clauses -> list PyVal -> Eff W (list PyVal));
  sqlite_querystrings : Instance W Clauses -> Result (list QueryString);
  postgres_querystrings : Instance W Clauses -> Result (list QueryString);
  default_querystrings : Instance W Clauses -> Result (list QueryString);
  methods : list string
}.

(** An object: its class and its attributes. *)
Record Query (W Clauses : Type) : Type := mkQuery {
  __class__ : QueryClass W Clauses;
  self : Instance W Clauses
}.

(** [FrozenQuery]: one attribute, the wrapped query. *)
Record FrozenQuery (W Clauses : Type) : Type := mkFrozenQuery {
  query : Query W Clauses
}.

(** ** Query *)

Section QueryMethods.

Variables W Clauses : Type.

(** [piccolo.utils.encoding.dump_json]: the JSON text of a value, or an
    exception for a value it cannot encode. *)
Variable dump_json : PyVal -> Result string.

Implicit Type q : Query W Clauses.

(** The [engine_type] property of [Query]. *)
Definition Query_engine_type q : Result string :=
  match db (_meta (table (self q))) with
  | Some engine => Ok (engine_type engine)
  | None => Raise (mkExn ValueError "Engine isn't defined.")
  end.

(** [try: body except NotImplementedError: handler]. *)
Definition except_NotImplementedError {A} (body handler : Result A)
  : Result A :=
  match body with
  | Raise (mkExn NotImplementedError _) => handler
  | _ => body
  end.

(** The [querystrings] property. *)
Definition querystrings q : Result (list QueryString) :=
  match _frozen_querystrings (self q) with
  | Some frozen => Ok frozen
  | None =>
      engine_type <-? Query_engine_type q ;;
      if engine_type =? "postgres" then
        except_NotImplementedError
          (postgres_querystrings (__class__ q) (self q))
          (default_querystrings (__class__ q) (self q))
      else if engine_type =? "sqlite" then
        except_NotImplementedError
          (sqlite_querystrings (__class__ q) (self q))
          (default_querystrings (__class__ q) (self q))
      else
        Raise (mkExn Exception_
                 ("No querystring found for the " ++ engine_type
                    ++ " engine."))
  end.

(** *** Result shaping *)

(** The first statement of [_process_results]: the keys of the first row
    with [$] rewritten to [.], and every row zipped against them. *)
Definition rebuild_rows (results : list Row) : list PyVal :=
  match results with
  | [] => []
  | first :: _ =>
      let keys := map (replace "$" ".") (keys first) in
      map (fun i => VDict (dict_zip keys (values i))) results
  end.

(** A list comprehension whose body may raise: left to right, the first
    exception ends it. *)
Fixpoint comprehension {A B} (f : A -> Result B) (l : list A)
  : Result (list B) :=
  match l with
  | [] => Ok []
  | x :: rest =>
      y <-? f x ;;
      ys <-? comprehension f rest ;;
      Ok (y :: ys)
  end.

(** [v.keys()] and [v.values()]: only a dict has them. *)
Definition dict_keys (v : PyVal) : Result (list string) :=
  match v with
  | VDict d => Ok (map fst d)
  | _ => Raise (mkExn AttributeError "object has no attribute 'keys'")
  end.

Definition dict_values (v : PyVal) : Result (list PyVal) :=
  match v with
  | VDict d => Ok (map snd d)
  | _ => Raise (mkExn AttributeError "object has no attribute 'values'")
  end.

(** The call of the table class on a value unpacked as keyword
    arguments: a value that is not a mapping is a [TypeError]. *)
Definition table_call q (columns : PyVal) : Result PyVal :=
  match columns with
  | VDict d => construct (table (self q)) d
  | _ => Raise (mkExn TypeError "argument after ** must be a mapping")
  end.

(** The last statement of the list branch: [if output._output.as_json]. *)
Definition json_step (output : OutputDelegate) (raw : PyVal)
  : Result PyVal :=
  if as_json (_output output) then
    s <-? dump_json raw ;; Ok (VStr s)
  else Ok raw.

(** [_process_results] from [output = getattr(self, "output_delegate",
    None)] to its [return]: what the output flags do to the value the
    response handler returned. *)
Definition shape q (raw : PyVal) : Result PyVal :=
  match output_delegate (self q) with
  | None => Ok raw
  | Some output =>
      if as_objects (_output output) then
        match raw with
        | VList l =>
            objs <-? comprehension (table_call q) l ;; Ok (VList objs)
        | VNone => Ok VNone
        | _ => table_call q raw
        end
      else
        match raw with
        | VList l =>
            if as_list (_output output) then
              match l with
              | [] => Ok (VList [])
              | first :: _ =>
                  ks <-? dict_keys first ;;
                  if negb (length ks =? 1)%nat then
                    Raise (mkExn ValueError
                             "Each row returned more than one value")
                  else
                    vs <-? comprehension dict_values l ;;
                    json_step output (VList (concat vs))
              end
            else json_step output (VList l)
        | _ => Ok raw
        end
  end.

(** [if hasattr(self, "run_callback"): self.run_callback(raw)].  The
    callback gets the list itself, so what goes on is the list as the
    callback left it. *)
Definition call_run_callback q (raw : list PyVal) : M W (list PyVal) :=
  match run_callback (__class__ q) with
  | Some callback => lift (callback (self q) raw)
  | None => ret raw
  end.

Definition _process_results q (results : list Row) : M W PyVal :=
  raw <- call_run_callback q (rebuild_rows results) ;;
  raw <- lift (response_handler (__class__ q) (self q) (VList raw)) ;;
  liftR (shape q raw).

(** *** Execution *)

(** [await engine.run_querystring(querystring, in_pool=in_pool)]: the
    call is recorded in the trace. *)
Definition await_run_querystring (engine : Engine W)
    (querystring : QueryString) (in_pool : bool) : M W (list Row) :=
  emit (EvRunQuerystring querystring in_pool) ;;;
  lift (run_querystring engine querystring in_pool).

(** The [for] loop of [run], with its [responses] accumulator. *)
Fixpoint run_for q (engine : Engine W) (in_pool : bool)
    (qs : list QueryString) (responses : list PyVal) : M W PyVal :=
  match qs with
  | [] => ret (VList responses)
  | querystring :: rest =>
      results <- await_run_querystring engine querystring in_pool ;;
      response <- _process_results q results ;;
      run_for q engine in_pool rest (responses ++ [response])
  end.

(** [seq[0]]. *)
Definition index0 {A} (l : list A) : Result A :=
  match l with
  | x :: _ => Ok x
  | [] => Raise (mkExn IndexError "list index out of range")
  end.

(** [Query.run].  The [querystrings] property is read anew at each of its
    uses, as in the source. *)
Definition run q (in_pool : bool) : M W PyVal :=
  lift (_validate (__class__ q) (self q)) ;;;
  match db (_meta (table (self q))) with
  | None =>
      raise (mkExn ValueError
               ("Table " ++ tablename (_meta (table (self q)))
                  ++ " has no db defined in _meta"))
  | Some engine =>
      qs <- liftR (querystrings q) ;;
      if (length qs =? 1)%nat then
        qs <- liftR (querystrings q) ;;
        querystring <- liftR (index0 qs) ;;
        results <- await_run_querystring engine querystring in_pool ;;
        _process_results q results
      else
        qs <- liftR (querystrings q) ;;
        run_for q engine in_pool qs []
  end.

(** [Query.__await__]: [run] with its default argument. *)
Definition Query___await__ q : M W PyVal := run q true.

(** [with Timer(): body]: [__exit__] prints the duration on both exits. *)
Definition with_Timer {A} (body : M W A) : M W A :=
  finally body (emit EvPrintDuration).

(** [Query.run_sync], called with [timed] and extra arguments.  These go to
    [run] together with [in_pool=False]; [run] has the one parameter
    [in_pool], so a caller that passes it too ([extra = Some _]) gets the
    [TypeError] of a doubly given argument.  [piccolo.utils.sync.run_sync]
    runs the coroutine to completion. *)
Definition run_sync q (timed : bool) (extra : option bool) : M W PyVal :=
  match extra with
  | Some _ =>
      raise (mkExn TypeError
               "run() got multiple values for argument 'in_pool'")
  | None =>
      let coroutine := run q false in
      if timed then with_Timer coroutine else coroutine
  end.

(** [Query.freeze]. *)
Definition freeze q : Result (FrozenQuery W Clauses) :=
  qs <-? querystrings q ;;
  let query :=
    mkQuery (__class__ q)
            (__init__ (__class__ q) (table (self q)) (Some qs)) in
  Ok (mkFrozenQuery query).

(** [Query.__init__], for the classes that do not override it. *)
Definition Query___init__ (no_clauses : Clauses) (table : Table W)
    (frozen_querystrings : option (list QueryString))
  : Instance W Clauses :=
  mkInstance table frozen_querystrings None no_clauses.

(** The methods of [Query] that subclasses override, as the base class
    has them. *)
Definition Query__validate : Instance W Clauses -> Eff W unit :=
  fun _ w => (Ok tt, w).

Definition Query_response_handler
  : Instance W Clauses -> PyVal -> Eff W PyVal :=
  fun _ response w => (Ok response, w).

Definition Query_not_implemented
  : Instance W Clauses -> Result (list QueryString) :=
  fun _ => Raise (mkExn NotImplementedError EmptyString).

(** The class [Query] itself. *)
Definition Query_class (no_clauses : Clauses) : QueryClass W Clauses :=
  mkQueryClass (Query___init__ no_clauses) Query__validate
    Query_response_handler None
    Query_not_implemented Query_not_implemented Query_not_implemented [].

(** ** FrozenQuery *)

Implicit Type fq : FrozenQuery W Clauses.

(** [FrozenQuery.run] forwards its arguments to the wrapped query's
    [run]: [in_pool] is the caller's argument, if given, and the default of
    [Query.run] otherwise. *)
Definition FrozenQuery_run fq (in_pool : option bool) : M W PyVal :=
  run (query fq) (match in_pool with Some b => b | None => true end).

Definition FrozenQuery_run_sync fq (timed : bool) (extra : option bool)
  : M W PyVal :=
  run_sync (query fq) timed extra.

(** [hasattr(obj, name)] where [name] is a property of [obj]: the getter
    runs, an [AttributeError] from it means the attribute is absent, and
    any other exception leaves [hasattr] (Python 3 catches only
    [AttributeError] there). *)
Definition hasattr_property {A} (getter : Result A) : Result bool :=
  match getter with
  | Ok _ => Ok true
  | Raise e =>
      match exc_class e with
      | AttributeError => Ok false
      | _ => Raise e
      end
  end.

(** The slots and plain methods of [Query]. *)
Definition Query_attributes : list string :=
  ["table"; "_frozen_querystrings"; "_process_results"; "_validate";
   "__await__"; "run"; "run_sync"; "response_handler"; "freeze";
   "__str__"; "__init__"; "__slots__"].

Definition mem (name : string) (names : list string) : bool :=
  existsb (String.eqb name) names.

(** [hasattr(query, name)] for a name that normal lookup did not find on
    the [FrozenQuery] wrapper (so not one that every object has): the five
    properties of [Query] are evaluated, the two optional attributes are
    present or not, and the rest is what [Query] and the concrete class
    define. *)
Definition hasattr q (name : string) : Result bool :=
  if name =? "engine_type" then hasattr_property (Query_engine_type q)
  else if name =? "sqlite_querystrings" then
    hasattr_property (sqlite_querystrings (__class__ q) (self q))
  else if name =? "postgres_querystrings" then
    hasattr_property (postgres_querystrings (__class__ q) (self q))
  else if name =? "default_querystrings" then
    hasattr_property (default_querystrings (__class__ q) (self q))
  else if name =? "querystrings" then hasattr_property (querystrings q)
  else if name =? "output_delegate" then
    Ok (match output_delegate (self q) with Some _ => true | None => false end)
  else if name =? "run_callback" then
    Ok (match run_callback (__class__ q) with Some _ => true | None => false end)
  else Ok (mem name Query_attributes || mem name (methods (__class__ q))).

(** [FrozenQuery.__getattr__], which Python calls for the names that
    normal lookup does not find on the wrapper. *)
Definition FrozenQuery___getattr__ fq (name : string) : Result PyVal :=
  b <-? hasattr (query fq) name ;;
  if b then
    Raise (mkExn AttributeError
             ("This query is frozen - " ++ name
                ++ " is only available on unfrozen queries."))
  else Raise (mkExn AttributeError "Unrecognised attribute name.").

End QueryMethods.

Arguments Query_class {W Clauses} no_clauses.

(** ** Vocabulary of the statements *)

(** A dialect producer is attempted with the default producer behind it:
    the default stands in exactly when the attempt signals
    [NotImplementedError]; any other exit of the attempt is the exit. *)
Inductive attempted {A} (specific default : Result A) : Result A -> Prop :=
| attempted_fallback (msg : string) :
    specific = Raise (mkExn NotImplementedError msg) ->
    attempted specific default default
| attempted_kept :
    (forall msg, specific <> Raise (mkExn NotImplementedError msg)) ->
    attempted specific default specific.

(** The events a [run] with pooling flag [b] may leave: calls of
    [run_querystring] that carry [b]. *)
Definition calls_with (b : bool) (t : list Event) : Prop :=
  Forall (fun e => exists x, e = EvRunQuerystring x b) t.

Section Vocabulary.

Variables W Clauses : Type.
Variable dump_json : PyVal -> Result string.
Implicit Type q : Query W Clauses.

(** The hooks of [q], run on the rebuilt rows [rows] in world [w], hand
    [raw] to the output flags and leave world [w']. *)
Definition hooks_return q (rows : list PyVal) (w : W) (raw : PyVal) (w' : W)
  : Prop :=
  exists rows1 w1,
    call_run_callback q rows w = mkOutcome (Ok rows1) w1 []
    /\ response_handler (__class__ q) (self q) (VList rows1) w1
       = (Ok raw, w').

(** The hooks leave the rows as they are: no callback or one that only
    reads, and a response handler that returns its argument. *)
Definition hooks_pass q (rows : list PyVal) (w w' : W) : Prop :=
  exists w1,
    call_run_callback q rows w = mkOutcome (Ok rows) w1 []
    /\ response_handler (__class__ q) (self q) (VList rows) w1
       = (Ok (VList rows), w').

(** One statement in full: its call, then the shaping of its rows. *)
Definition one_statement q (engine : Engine W) (b : bool)
    (x : QueryString) : M W PyVal :=
  results <- await_run_querystring engine x b ;;
  _process_results dump_json q results.

(** Statement by statement: execute, shape, and only then go on. *)
Fixpoint each_in_turn q (engine : Engine W) (in_pool : bool)
    (qs : list QueryString) : M W (list PyVal) :=
  match qs with
  | [] => ret []
  | querystring :: rest =>
      results <- await_run_querystring engine querystring in_pool ;;
      output <- _process_results dump_json q results ;;
      outputs <- each_in_turn q engine in_pool rest ;;
      ret (output :: outputs)
  end.

(** The query [q] with its [as_json] flag set to [b]. *)
Definition set_as_json (b : bool) q : Query W Clauses :=
  mkQuery (__class__ q)
    (mkInstance (table (self q)) (_frozen_querystrings (self q))
       (match output_delegate (self q) with
        | Some output =>
            Some (mkOutputDelegate
                    (mkOutput b (as_list (_output output))
                       (as_objects (_output output))))
        | None => None
        end)
       (clauses (self q))).

End Vocabulary.

(** ** Example data *)

(** In the examples the world is a number, the count of the statements
    the database has executed. *)
Definition select_band : QueryString :=
  mkQueryString "SELECT name FROM band" [].

Definition count_band : QueryString :=
  mkQueryString "SELECT count(id) FROM band" [].

Definition band_rows : list Row :=
  [[("name", VStr "Pythonistas")]; [("name", VStr "Rustaceans")]].

(** An engine that answers every statement with [rows]. *)
Definition answering (tag : string) (rows : list Row) : Engine nat :=
  mkEngine tag (fun _ _ w => (Ok rows, S w)).

Definition Band (engine : option (Engine nat)) : Table nat :=
  mkTable (mkTableMeta "band" engine) (fun kwargs => Ok (VObj "Band" kwargs)).

(** A toy encoder: it tells an empty list from the rest. *)
Definition toy_json (v : PyVal) : Result string :=
  match v with
  | VList [] => Ok "[]"
  | VList _ => Ok "[...]"
  | VObj _ _ => Raise (mkExn TypeError "Type is not JSON serializable")
  | _ => Ok "..."
  end.

(** A subclass of [Query] that keeps [Query.__init__] and the default
    hooks, and overrides [default_querystrings] alone. *)
Definition SelectBand : QueryClass nat unit :=
  mkQueryClass (Query___init__ tt) (@Query__validate nat unit)
    (@Query_response_handler nat unit) None
    (@Query_not_implemented nat unit) (@Query_not_implemented nat unit)
    (fun _ => Ok [select_band]) ["output"; "where"; "limit"].

(** The same with the response handler of a [first()] query: the first
    row, or [None]. *)
Definition FirstBand : QueryClass nat unit :=
  mkQueryClass (Query___init__ tt) (@Query__validate nat unit)
    (fun _ response w =>
       match response with
       | VList (row :: _) => (Ok row, w)
       | _ => (Ok VNone, w)
       end)
    None
    (@Query_not_implemented nat unit) (@Query_not_implemented nat unit)
    (fun _ => Ok [select_band]) ["output"; "where"; "limit"].

(** A query that resolves to two statements. *)
Definition TwoStatements : QueryClass nat unit :=
  mkQueryClass (Query___init__ tt) (@Query__validate nat unit)
    (@Query_response_handler nat unit) None
    (@Query_not_implemented nat unit) (@Query_not_implemented nat unit)
    (fun _ => Ok [select_band; count_band]) [].

Definition a_query (c : QueryClass nat unit) (engine : option (Engine nat))
    (output : option Output) : Query nat unit :=
  mkQuery c
    (mkInstance (Band engine) None
       (match output with
        | Some o => Some (mkOutputDelegate o)
        | None => None
        end)
       tt).

Definition postgres : Engine nat := answering "postgres" band_rows.

(** ** String conversion *)

(** [sep.join(parts)]. *)
Fixpoint join (sep : string) (parts : list string) : string :=
  match parts with
  | [] => EmptyString
  | [x] => x
  | x :: rest => x ++ sep ++ join sep rest
  end.

Section Rendering.

Variables W Clauses : Type.

(** [QueryString.__str__], of [piccolo.querystring]: the rendering of
    one statement. *)
Variable QueryString___str__ : QueryString -> string.

(** [Query.__str__]. *)
Definition Query___str__ (q : Query W Clauses) : Result string :=
  qs <-? querystrings q ;;
  Ok (join "; " (map QueryString___str__ qs)).

(** [FrozenQuery.__str__]. *)
Definition FrozenQuery___str__ (fq : FrozenQuery W Clauses)
  : Result string :=
  Query___str__ (query fq).

End Rendering.

(** ** Further vocabulary *)

(** Whether the character [c] occurs in [s]. *)
Fixpoint occurs (c : ascii) (s : string) : bool :=
  match s with
  | EmptyString => false
  | String c' rest => Ascii.eqb c' c || occurs c rest
  end.

(** The names that [Query] defines as properties. *)
Definition Query_properties : list string :=
  ["engine_type"; "sqlite_querystrings"; "postgres_querystrings";
   "default_querystrings"; "querystrings"].

(** The two messages of [FrozenQuery.__getattr__]. *)
Definition frozen_message (present : bool) (name : string) : string :=
  if present then
    "This query is frozen - " ++ name
      ++ " is only available on unfrozen queries."
  else "Unrecognised attribute name.".

(** ** Further example data *)

(** An engine that raises on the statement whose template is [bad] and
    answers the others with [band_rows]. *)
Definition failing_on (bad : string) : Engine nat :=
  mkEngine "postgres"
    (fun querystring _ w =>
       if template querystring =? bad then
         (Raise (mkExn (OtherError "PostgresError") "syntax error"), S w)
       else (Ok band_rows, S w)).

(** A query class whose validation hook refuses to run. *)
Definition GuardedDelete : QueryClass nat unit :=
  mkQueryClass (Query___init__ tt)
    (fun _ w => (Raise (mkExn (OtherError "DeletionError") "no where clause"), w))
    (@Query_response_handler nat unit) None
    (@Query_not_implemented nat unit) (@Query_not_implemented nat unit)
    (fun _ => Ok [select_band]) ["where"].

(** A query class that resolves to no statement at all. *)
Definition NoStatement : QueryClass nat unit :=
  mkQueryClass (Query___init__ tt) (@Query__validate nat unit)
    (@Query_response_handler nat unit) None
    (@Query_not_implemented nat unit) (@Query_not_implemented nat unit)
    (fun _ => Ok []) [].

(** * Properties *)

Section Resolution.

Variables W Clauses : Type.
Variable dump_json : PyVal -> Result string.
Implicit Type q : Query W Clauses.
Implicit Type w : W.

(** ** Dialect resolution *)

Lemma except_NotImplementedError_attempted {A} (body handler : Result A) :
  attempted body handler (except_NotImplementedError body handler).
Proof.
  destruct body as [a | [c msg]].
  - apply attempted_kept. discriminate.
  - destruct c; simpl;
      try (apply attempted_kept; intros m; congruence).
    apply attempted_fallback with (msg := msg). reflexivity.
Qed.

(** C1.  Frozen querystrings are returned as they are, whatever the
    engine and the producers; without them, a [postgres] tag attempts the
    postgres producer and a [sqlite] tag the sqlite producer, each with the
    default producer standing in when the attempt signals
    [NotImplementedError]; any other tag raises an exception whose message
    carries the tag. *)
Theorem querystrings_resolution q :
  (forall frozen,
      _frozen_querystrings (self q) = Some frozen ->
      querystrings q = Ok frozen)
  /\ (forall engine,
         _frozen_querystrings (self q) = None ->
         db (_meta (table (self q))) = Some engine ->
         let tag := engine_type engine in
         let default := default_querystrings (__class__ q) (self q) in
         (tag = "postgres" ->
          attempted (postgres_querystrings (__class__ q) (self q)) default
            (querystrings q))
         /\ (tag = "sqlite" ->
             attempted (sqlite_querystrings (__class__ q) (self q)) default
               (querystrings q))
         /\ (tag <> "postgres" -> tag <> "sqlite" ->
             querystrings q
             = Raise (mkExn Exception_
                        ("No querystring found for the " ++ tag
                           ++ " engine.")))).
Proof.
  split.
  - intros frozen Hf. unfold querystrings. rewrite Hf. reflexivity.
  - intros engine Hf Hdb tag default.
    unfold querystrings, Query_engine_type. rewrite Hf, Hdb. simpl.
    fold tag. repeat split.
    + intros Ht. rewrite Ht. simpl.
      apply except_NotImplementedError_attempted.
    + intros Ht. rewrite Ht. simpl.
      apply except_NotImplementedError_attempted.
    + intros Hp Hs.
      destruct (String.eqb_spec tag "postgres") as [E | _]; [contradiction |].
      destruct (String.eqb_spec tag "sqlite") as [E | _]; [contradiction |].
      reflexivity.
Qed.

End Resolution.

Lemma querystrings_resolution_witness :
  querystrings (a_query SelectBand (Some postgres) None) = Ok [select_band]
  /\ querystrings
       (a_query SelectBand (Some (answering "mysql" band_rows)) None)
     = Raise (mkExn Exception_ "No querystring found for the mysql engine.").
Proof.
  split.
  - pose proof (proj2 (querystrings_resolution
                         (a_query SelectBand (Some postgres) None))
                  postgres eq_refl eq_refl) as H.
    destruct H as [Hpg _].
    specialize (Hpg eq_refl).
    inversion Hpg as [msg Hs Hd | Hk Hd].
    rewrite <- Hd. reflexivity.
  - pose proof (proj2 (querystrings_resolution
                         (a_query SelectBand
                            (Some (answering "mysql" band_rows)) None))
                  (answering "mysql" band_rows) eq_refl eq_refl) as H.
    destruct H as [_ [_ Hother]].
    apply Hother; simpl; discriminate.
Defined.

(** ** The laws of the effect monad that the proofs use *)

Section MonadLaws.

Variable W : Type.
Implicit Type w : W.

Lemma bind_ret {A B} (a : A) (k : A -> M W B) w :
  bind (ret a) k w = k a w.
Proof. reflexivity. Qed.

Lemma bind_liftR_Ok {A B} (a : A) (k : A -> M W B) w :
  bind (liftR (Ok a)) k w = k a w.
Proof. reflexivity. Qed.

Lemma bind_ext {A B} (m : M W A) (k k' : A -> M W B) w :
  (forall a w', k a w' = k' a w') -> bind m k w = bind m k' w.
Proof.
  intros H. unfold bind. destruct (result (m w)); [rewrite H |]; reflexivity.
Qed.

Lemma bind_cong {A B} (m m' : M W A) (k k' : A -> M W B) w :
  (forall w0, m w0 = m' w0) ->
  (forall a w', k a w' = k' a w') ->
  bind m k w = bind m' k' w.
Proof.
  intros Hm Hk. unfold bind. rewrite Hm.
  destruct (result (m' w)); [rewrite Hk |]; reflexivity.
Qed.

Lemma bind_assoc {A B C} (m : M W A) (f : A -> M W B) (g : B -> M W C) w :
  bind (bind m f) g w = bind m (fun a => bind (f a) g) w.
Proof.
  unfold bind. cbn.
  destruct (result (m w)) as [a | e]; cbn; [| reflexivity].
  destruct (result (f a (world (m w)))) as [b | e]; cbn.
  - rewrite app_assoc. reflexivity.
  - reflexivity.
Qed.

Lemma trace_bind {A B} (m : M W A) (k : A -> M W B) w :
  trace (bind m k w)
  = match result (m w) with
    | Ok a => trace (m w) ++ trace (k a (world (m w)))
    | Raise _ => trace (m w)
    end.
Proof. unfold bind. destruct (result (m w)); reflexivity. Qed.

Lemma result_bind {A B} (m : M W A) (k : A -> M W B) w :
  result (bind m k w)
  = match result (m w) with
    | Ok a => result (k a (world (m w)))
    | Raise e => Raise e
    end.
Proof. unfold bind. destruct (result (m w)); reflexivity. Qed.

Lemma trace_lift {A} (f : Eff W A) w : trace (lift f w) = [].
Proof. unfold lift. destruct (f w). reflexivity. Qed.

End MonadLaws.

(** ** Execution *)

Section Execution.

Variables W Clauses : Type.
Variable dump_json : PyVal -> Result string.
Implicit Type q : Query W Clauses.
Implicit Type w : W.

Lemma trace_call_run_callback q rows w :
  trace (call_run_callback q rows w) = [].
Proof.
  unfold call_run_callback.
  destruct (run_callback (__class__ q)); [apply trace_lift | reflexivity].
Qed.

(** Shaping a result asks nothing of the engine. *)
Lemma trace__process_results q results w :
  trace (_process_results dump_json q results w) = [].
Proof.
  unfold _process_results.
  rewrite trace_bind, trace_call_run_callback.
  destruct (result (call_run_callback q (rebuild_rows results) w)); cbn;
    [| reflexivity].
  rewrite trace_bind, trace_lift.
  destruct (result (lift _ _)); reflexivity.
Qed.

Lemma trace_await_run_querystring (engine : Engine W) x b w :
  trace (await_run_querystring engine x b w) = [EvRunQuerystring x b].
Proof.
  unfold await_run_querystring. rewrite trace_bind. cbn.
  rewrite trace_lift. reflexivity.
Qed.

Lemma trace_one_statement q engine b x w :
  trace (one_statement dump_json q engine b x w) = [EvRunQuerystring x b].
Proof.
  unfold one_statement.
  rewrite trace_bind, trace_await_run_querystring.
  destruct (result _); [| reflexivity].
  rewrite trace__process_results. reflexivity.
Qed.

(** The loop of [run] is [each_in_turn] behind the responses it has
    gathered so far. *)
Lemma run_for_each_in_turn q engine b qs :
  forall responses w,
    run_for dump_json q engine b qs responses w
    = (outputs <- each_in_turn dump_json q engine b qs ;;
       ret (VList (responses ++ outputs))) w.
Proof.
  induction qs as [| x rest IH]; intros responses w.
  - cbn [run_for each_in_turn]. rewrite bind_ret, app_nil_r. reflexivity.
  - cbn [run_for each_in_turn].
    rewrite bind_assoc. apply bind_ext. intros results w1.
    rewrite bind_assoc. apply bind_ext. intros response w2.
    rewrite IH, bind_assoc. apply bind_ext. intros outputs w3.
    rewrite bind_ret, <- app_assoc. reflexivity.
Qed.

(** The calls of [each_in_turn] are those of a prefix of the statements,
    in their order, and of all of them when it returns; it then returns
    one output per statement. *)
Lemma each_in_turn_trace q engine b qs :
  forall w,
    let o := each_in_turn dump_json q engine b qs w in
    (exists k, trace o = map (fun x => EvRunQuerystring x b) (firstn k qs))
    /\ (forall outputs,
           result o = Ok outputs ->
           trace o = map (fun x => EvRunQuerystring x b) qs
           /\ length outputs = length qs).
Proof.
  induction qs as [| x rest IH]; intros w; cbn zeta.
  - split; [exists 0%nat; reflexivity |].
    cbn. intros outputs H. inversion H. split; reflexivity.
  - cbn [each_in_turn].
    assert (E : forall w0,
      (results <- await_run_querystring engine x b ;;
       output <- _process_results dump_json q results ;;
       outputs <- each_in_turn dump_json q engine b rest ;;
       ret (output :: outputs)) w0
      = (output <- one_statement dump_json q engine b x ;;
         outputs <- each_in_turn dump_json q engine b rest ;;
         ret (output :: outputs)) w0).
    { intros w0. unfold one_statement. rewrite bind_assoc. reflexivity. }
    rewrite E. clear E.
    rewrite trace_bind, result_bind, trace_one_statement.
    destruct (result (one_statement dump_json q engine b x w)) as [output | e].
    + set (w1 := world (one_statement dump_json q engine b x w)).
      destruct (IH w1) as [[k Hk] Hall]. cbn zeta in Hall.
      rewrite trace_bind, result_bind.
      destruct (result (each_in_turn dump_json q engine b rest w1))
        as [outputs | e].
      * cbn. rewrite app_nil_r.
        destruct (Hall outputs eq_refl) as [Ht Hl].
        split.
        -- exists (S (length rest)). cbn. rewrite firstn_all, Ht. reflexivity.
        -- intros outs H. inversion H. cbn. rewrite Ht, Hl. split; reflexivity.
      * split.
        -- exists (S k). cbn. rewrite Hk. reflexivity.
        -- intros outs H. discriminate H.
    + split.
      * exists 1%nat. reflexivity.
      * intros outs H. discriminate H.
Qed.

(** [run] on a bound engine, once the statements are resolved: the
    validation hook, then one statement shaped on its own, or the
    statements each in turn. *)
Lemma run_resolved q in_pool engine qs w :
  db (_meta (table (self q))) = Some engine ->
  querystrings q = Ok qs ->
  run dump_json q in_pool w
  = (lift (_validate (__class__ q) (self q)) ;;;
     match qs with
     | [x] => one_statement dump_json q engine in_pool x
     | _ =>
         outputs <- each_in_turn dump_json q engine in_pool qs ;;
         ret (VList outputs)
     end) w.
Proof.
  intros Hdb Hqs. unfold run. rewrite Hdb, Hqs.
  apply bind_ext. intros _ w1. rewrite bind_liftR_Ok.
  destruct qs as [| x [| y rest]].
  - reflexivity.
  - reflexivity.
  - cbn [length Nat.eqb]. rewrite bind_liftR_Ok.
    apply (run_for_each_in_turn q engine in_pool (x :: y :: rest) [] w1).
Qed.

(** What [run] asks of the engine: the statements of a prefix of the
    resolved list, in order, and all of them when it returns. *)
Lemma run_resolved_trace q in_pool engine qs w :
  db (_meta (table (self q))) = Some engine ->
  querystrings q = Ok qs ->
  let o := run dump_json q in_pool w in
  (exists k,
      trace o = map (fun x => EvRunQuerystring x in_pool) (firstn k qs))
  /\ (forall v, result o = Ok v ->
        trace o = map (fun x => EvRunQuerystring x in_pool) qs).
Proof.
  intros Hdb Hqs o. subst o.
  rewrite (run_resolved q in_pool w Hdb Hqs).
  set (validate := lift (_validate (__class__ q) (self q))).
  assert (Hv : trace (validate w) = []) by apply trace_lift.
  split.
  - rewrite trace_bind, Hv.
    destruct (result (validate w)); [| exists 0%nat; reflexivity].
    cbn [app].
    destruct qs as [| x [| y rest]].
    + exists 0%nat. reflexivity.
    + exists 1%nat. apply trace_one_statement.
    + rewrite trace_bind.
      pose proof (each_in_turn_trace q engine in_pool
                    (x :: y :: rest) (world (validate w))) as [[k Hk] Hall].
      cbn zeta in Hall.
      destruct (result (each_in_turn dump_json q engine in_pool
                          (x :: y :: rest) (world (validate w))))
        as [outputs | e].
      * destruct (Hall outputs eq_refl) as [Ht _].
        exists (length (x :: y :: rest)).
        rewrite firstn_all, Ht. cbn [ret trace]. apply app_nil_r.
      * exists k. exact Hk.
  - intros v. rewrite result_bind, trace_bind, Hv.
    destruct (result (validate w)); [| discriminate].
    cbn [app].
    destruct qs as [| x [| y rest]].
    + reflexivity.
    + intros _. apply trace_one_statement.
    + rewrite result_bind, trace_bind.
      pose proof (each_in_turn_trace q engine in_pool
                    (x :: y :: rest) (world (validate w))) as [_ Hall].
      cbn zeta in Hall.
      destruct (result (each_in_turn dump_json q engine in_pool
                          (x :: y :: rest) (world (validate w))))
        as [outputs | e]; [| discriminate].
      intros _. destruct (Hall outputs eq_refl) as [Ht _].
      rewrite Ht. cbn [ret trace]. apply app_nil_r.
Qed.

(** Every call [run] makes carries the pooling flag it was given. *)
Lemma run_calls_with q b w : calls_with b (trace (run dump_json q b w)).
Proof.
  destruct (db (_meta (table (self q)))) as [engine |] eqn:Hdb.
  - destruct (querystrings q) as [qs | e] eqn:Hqs.
    + destruct (run_resolved_trace q b w Hdb Hqs) as [[k Hk] _].
      rewrite Hk. unfold calls_with. apply Forall_forall.
      intros ev Hin. apply in_map_iff in Hin as [x [Hx _]].
      exists x. symmetry. exact Hx.
    + unfold run. rewrite Hdb, Hqs, trace_bind, trace_lift.
      destruct (result (lift _ _)); constructor.
  - unfold run. rewrite Hdb, trace_bind, trace_lift.
    destruct (result (lift _ _)); constructor.
Qed.

(** C4.  With one querystring, [run] executes it and returns its shaped
    output itself.  With two or more, it executes and shapes them each in
    turn, a statement's rows shaped before the next statement is sent, and
    returns the list of the outputs in the order of the statements.  The
    engine is asked nothing but the statements themselves, in order, with
    the caller's pooling flag: nothing opens or closes a transaction
    around them. *)
Theorem run_executes_in_sequence q in_pool engine qs :
  db (_meta (table (self q))) = Some engine ->
  querystrings q = Ok qs ->
  forall w,
    let o := run dump_json q in_pool w in
    (forall x, qs = [x] ->
       o = (lift (_validate (__class__ q) (self q)) ;;;
            one_statement dump_json q engine in_pool x) w)
    /\ (2 <= length qs ->
        o = (lift (_validate (__class__ q) (self q)) ;;;
             outputs <- each_in_turn dump_json q engine in_pool qs ;;
             ret (VList outputs)) w
        /\ forall v, result o = Ok v ->
             exists outputs, v = VList outputs
                             /\ length outputs = length qs)
    /\ (exists k,
           trace o = map (fun x => EvRunQuerystring x in_pool) (firstn k qs))
    /\ (forall v, result o = Ok v ->
          trace o = map (fun x => EvRunQuerystring x in_pool) qs).
Proof.
  intros Hdb Hqs w o.
  split; [| split; [| apply (run_resolved_trace q in_pool w Hdb Hqs)]];
    subst o; rewrite (run_resolved q in_pool w Hdb Hqs).
  - intros x ->. reflexivity.
  - intros Hlen. destruct qs as [| x [| y rest]]; cbn in Hlen; try lia.
    split; [reflexivity |].
    set (validate := lift (_validate (__class__ q) (self q))).
    intros v. rewrite result_bind.
    destruct (result (validate w)); [| discriminate].
    rewrite result_bind.
    pose proof (each_in_turn_trace q engine in_pool
                  (x :: y :: rest) (world (validate w))) as [_ Hall].
    cbn zeta in Hall.
    destruct (result (each_in_turn dump_json q engine in_pool
                        (x :: y :: rest) (world (validate w))))
      as [outputs | e]; [| discriminate].
    cbn. intros H. inversion H. exists outputs.
    split; [reflexivity | apply (Hall outputs eq_refl)].
Qed.

(** C5.  On a table with no bound engine, [run] is the validation hook
    followed by the [ValueError] that names the table: nothing is sent to
    the engine, no producer of querystrings has a say in the outcome, and
    once the hook has returned (in [Query] it does nothing) the error is
    the outcome. *)
Theorem run_without_engine_fails_fast q in_pool w :
  db (_meta (table (self q))) = None ->
  let o := run dump_json q in_pool w in
  let message :=
    ("Table " ++ tablename (_meta (table (self q)))
       ++ " has no db defined in _meta")%string in
  o = (lift (_validate (__class__ q) (self q)) ;;;
       raise (mkExn ValueError message)) w
  /\ trace o = []
  /\ (forall w',
         _validate (__class__ q) (self q) w = (Ok tt, w') ->
         result o = Raise (mkExn ValueError message) /\ world o = w')
  /\ (forall c',
         _validate c' (self q) w = _validate (__class__ q) (self q) w ->
         run dump_json (mkQuery c' (self q)) in_pool w = o).
Proof.
  intros Hdb o message. subst o.
  assert (E : forall c,
             run dump_json (mkQuery c (self q)) in_pool w
             = (lift (_validate c (self q)) ;;;
                raise (mkExn ValueError message)) w).
  { intros c. unfold run. cbn [self __class__]. rewrite Hdb. reflexivity. }
  assert (E0 := E (__class__ q)).
  destruct q as [c i]. cbn [self __class__] in *.
  rewrite E0. split; [reflexivity |]. split; [| split].
  - rewrite trace_bind, trace_lift. destruct (result _); reflexivity.
  - intros w' Hv. unfold bind, lift. rewrite Hv. split; reflexivity.
  - intros c' Hv. rewrite (E c'). unfold bind, lift. rewrite Hv. reflexivity.
Qed.

(** C10.  Whatever [timed] is, the calls [run_sync] makes to the engine
    carry [in_pool = False]: it is [run] with that flag, followed by the
    printed duration when timed, and a caller cannot pass the flag
    itself.  Awaiting the query, which is [run] with its default, asks for
    pooled connections instead. *)
Theorem run_sync_never_pools q timed extra w :
  let o := run_sync dump_json q timed extra w in
  (forall x b, In (EvRunQuerystring x b) (trace o) -> b = false)
  /\ (extra = None ->
      result o = result (run dump_json q false w)
      /\ world o = world (run dump_json q false w)
      /\ trace o
         = trace (run dump_json q false w)
             ++ (if timed then [EvPrintDuration] else []))
  /\ (forall x b,
         In (EvRunQuerystring x b) (trace (Query___await__ dump_json q w)) ->
         b = true).
Proof.
  intros o. subst o.
  assert (Hcalls : forall flag x b,
             In (EvRunQuerystring x b) (trace (run dump_json q flag w)) ->
             b = flag).
  { intros flag x b Hin.
    pose proof (run_calls_with q flag w) as Hc. unfold calls_with in Hc.
    rewrite Forall_forall in Hc. destruct (Hc _ Hin) as [y Hy].
    inversion Hy. reflexivity. }
  assert (Hnone :
    result (run_sync dump_json q timed None w)
    = result (run dump_json q false w)
    /\ world (run_sync dump_json q timed None w)
       = world (run dump_json q false w)
    /\ trace (run_sync dump_json q timed None w)
       = trace (run dump_json q false w)
           ++ (if timed then [EvPrintDuration] else [])).
  { unfold run_sync. destruct timed.
    - unfold with_Timer, finally. cbn. repeat split; reflexivity.
    - rewrite app_nil_r. repeat split; reflexivity. }
  split; [| split].
  - intros x b Hin. destruct extra as [given |].
    + cbn in Hin. contradiction.
    + destruct Hnone as [_ [_ Ht]]. rewrite Ht in Hin.
      apply in_app_or in Hin as [Hin | Hin].
      * apply (Hcalls false x b Hin).
      * destruct timed; cbn in Hin; [destruct Hin as [H | []] |
                                      contradiction].
        discriminate H.
  - intros ->. exact Hnone.
  - intros x b Hin. apply (Hcalls true x b Hin).
Qed.

End Execution.

(** ** Result shaping *)

Section Shaping.

Variables W Clauses : Type.
Variable dump_json : PyVal -> Result string.
Implicit Type q : Query W Clauses.
Implicit Type w : W.

(** Once the hooks have returned, [_process_results] is [shape] on what
    they returned. *)
Lemma _process_results_shape q results w raw w' :
  hooks_return q (rebuild_rows results) w raw w' ->
  _process_results dump_json q results w
  = mkOutcome (shape dump_json q raw) w' [].
Proof.
  intros [rows1 [w1 [Hcb Hrh]]].
  unfold _process_results, bind. rewrite Hcb. cbn.
  unfold lift. rewrite Hrh. reflexivity.
Qed.

Lemma hooks_pass_return q rows w w' :
  hooks_pass q rows w w' -> hooks_return q rows w (VList rows) w'.
Proof. intros [w1 [Hcb Hrh]]. exists rows, w1. split; assumption. Qed.

(** The hooks of [Query] itself pass the rows through. *)
Lemma Query_hooks_pass q rows w :
  run_callback (__class__ q) = None ->
  response_handler (__class__ q) = @Query_response_handler W Clauses ->
  hooks_pass q rows w w.
Proof.
  intros Hcb Hrh. exists w. unfold call_run_callback.
  rewrite Hcb, Hrh. split; reflexivity.
Qed.

(** *** The keys of a rebuilt row *)

Lemma dict_set_keys d k v k' :
  In k' (map fst (dict_set d k v)) <-> In k' (map fst d) \/ k' = k.
Proof.
  induction d as [| [k0 v0] rest IH]; cbn.
  - intuition congruence.
  - destruct (String.eqb_spec k0 k) as [-> | Hne]; cbn.
    + intuition congruence.
    + rewrite IH. intuition congruence.
Qed.

Lemma fold_dict_set_keys (kvs : list (string * PyVal)) :
  forall d k,
    In k (map fst (fold_left (fun d kv => dict_set d (fst kv) (snd kv)) kvs d))
    <-> In k (map fst d) \/ In k (map fst kvs).
Proof.
  induction kvs as [| [k0 v0] rest IH]; intros d k; cbn.
  - intuition.
  - rewrite IH, dict_set_keys. cbn. intuition congruence.
Qed.

(** The keys of a rebuilt row are the rewritten names of its columns. *)
Lemma dict_zip_row_keys (f : string -> string) (row : Row) k :
  In k (map fst (dict_zip (map f (keys row)) (values row)))
  <-> In k (map f (keys row)).
Proof.
  unfold dict_zip. rewrite fold_dict_set_keys. cbn.
  assert (E : map fst (combine (map f (keys row)) (values row))
              = map f (keys row)).
  { unfold keys, values. induction row as [| [c v] rest IH]; cbn;
      [reflexivity | rewrite IH; reflexivity]. }
  rewrite E. intuition.
Qed.

Lemma two_members {A} (l : list A) a b :
  In a l -> In b l -> a <> b -> 2 <= length l.
Proof.
  destruct l as [| x [| y rest]]; cbn; intros Ha Hb Hne.
  - contradiction.
  - destruct Ha as [-> | []], Hb as [-> | []]. congruence.
  - lia.
Qed.

Lemma comprehension_Forall2 {A B} (f : A -> Result B) l ys :
  Forall2 (fun x y => f x = Ok y) l ys -> comprehension f l = Ok ys.
Proof.
  induction 1 as [| x y l ys Hx _ IH]; cbn.
  - reflexivity.
  - rewrite Hx, IH. reflexivity.
Qed.

(** C6, as amended.  On a result set (rows over the same columns) with
    [as_list] set and [as_objects] unset, whose rows the hooks pass
    through, shaping raises [ValueError("Each row returned more than one
    value")] as soon as a row has two columns whose names are still
    different once [$] is rewritten to [.], however many rows there are.
    The error comes out of [_process_results], that is after the statement
    was built and executed. *)
Theorem as_list_requires_one_key q output results row w w' :
  output_delegate (self q) = Some output ->
  as_objects (_output output) = false ->
  as_list (_output output) = true ->
  In row results ->
  (forall r, In r results -> keys r = keys row) ->
  hooks_pass q (rebuild_rows results) w w' ->
  (exists c1 c2,
      In c1 (keys row) /\ In c2 (keys row)
      /\ replace "$" "." c1 <> replace "$" "." c2) ->
  _process_results dump_json q results w
  = mkOutcome
      (Raise (mkExn ValueError "Each row returned more than one value"))
      w' [].
Proof.
  intros Hout Hobj Hlist Hin Hsame Hpass [c1 [c2 [H1 [H2 Hne]]]].
  destruct results as [| first rest]; [contradiction |].
  rewrite <- (Hsame first (or_introl eq_refl)) in H1, H2.
  rewrite (_process_results_shape (first :: rest)
             (hooks_pass_return Hpass)).
  f_equal. unfold shape. rewrite Hout, Hobj, Hlist. cbn.
  set (d := dict_zip (map (replace "$" ".") (keys first)) (values first)).
  assert (Hlen : 2 <= length (map fst d)).
  { apply two_members
      with (a := replace "$" "." c1) (b := replace "$" "." c2).
    - apply dict_zip_row_keys. apply in_map. exact H1.
    - apply dict_zip_row_keys. apply in_map. exact H2.
    - exact Hne. }
  destruct (Nat.eqb_spec (length (map fst d)) 1) as [E | _]; [lia |].
  reflexivity.
Qed.

(** C7.  With [as_list] set and no rows from the engine, the result is
    the empty list: no check is made, nothing is raised, and no other
    output flag changes that.  So a [run] of one statement that matched
    nothing returns the empty list. *)
Theorem as_list_empty_result q output w w' :
  output_delegate (self q) = Some output ->
  as_list (_output output) = true ->
  hooks_pass q [] w w' ->
  _process_results dump_json q [] w = mkOutcome (Ok (VList [])) w' []
  /\ (forall engine x in_pool w0 w1,
         db (_meta (table (self q))) = Some engine ->
         querystrings q = Ok [x] ->
         _validate (__class__ q) (self q) w0 = (Ok tt, w1) ->
         run_querystring engine x in_pool w1 = (Ok [], w) ->
         result (run dump_json q in_pool w0) = Ok (VList [])).
Proof.
  intros Hout Hlist Hpass.
  assert (E : _process_results dump_json q [] w
              = mkOutcome (Ok (VList [])) w' []).
  { change (@nil PyVal) with (rebuild_rows []) in Hpass.
    rewrite (_process_results_shape []
               (hooks_pass_return Hpass)).
    f_equal. unfold shape. rewrite Hout, Hlist. cbn.
    destruct (as_objects (_output output)); reflexivity. }
  split; [exact E |].
  intros engine x in_pool w0 w1 Hdb Hqs Hv Hrun.
  rewrite (run_resolved dump_json q in_pool w0 Hdb Hqs).
  unfold one_statement, await_run_querystring, bind, lift.
  rewrite Hv. cbn. rewrite Hrun. cbn. rewrite E. reflexivity.
Qed.

(** C8.  With [as_objects] set, a list from the response handler becomes
    the list of the instances built from its rows, in order; [None] stays
    [None]; and anything else is taken for one row, from which one
    instance is built. *)
Theorem as_objects_shaping q output results w raw w' :
  output_delegate (self q) = Some output ->
  as_objects (_output output) = true ->
  hooks_return q (rebuild_rows results) w raw w' ->
  let o := _process_results dump_json q results w in
  world o = w'
  /\ (forall rows objs,
         raw = VList rows ->
         Forall2 (fun row obj =>
                    exists d, row = VDict d
                              /\ construct (table (self q)) d = Ok obj)
                 rows objs ->
         result o = Ok (VList objs))
  /\ (raw = VNone -> result o = Ok VNone)
  /\ (forall d, raw = VDict d -> result o = construct (table (self q)) d)
  /\ ((forall rows, raw <> VList rows) -> raw <> VNone ->
      result o = table_call q raw).
Proof.
  intros Hout Hobj Hhooks o. subst o.
  rewrite (_process_results_shape results Hhooks). cbn.
  unfold shape. rewrite Hout, Hobj.
  split; [reflexivity |]. split; [| split; [| split]].
  - intros rows objs -> Hall.
    rewrite (@comprehension_Forall2 _ _ (table_call q) rows objs).
    + reflexivity.
    + eapply Forall2_impl; [| exact Hall].
      intros row obj [d [-> Hc]]. exact Hc.
  - intros ->. reflexivity.
  - intros d ->. reflexivity.
  - intros Hl Hn. destruct raw; try reflexivity.
    + contradiction.
    + exfalso. apply (Hl l). reflexivity.
Qed.

(** C9, as amended.  The [as_json] flag acts on list results of a query
    whose [as_objects] flag is unset: whatever the list is shaped into
    without the flag (itself, or its flattening under [as_list], the list
    being non-empty then) is what [dump_json] gets, and its text is the
    result.  With [as_objects] set, and on a handler result that is not a
    list, the flag changes nothing. *)
Theorem as_json_serializes_lists q output :
  output_delegate (self q) = Some output ->
  (as_objects (_output output) = false ->
   forall rows shaped,
     (as_list (_output output) = true -> rows <> []) ->
     shape dump_json (set_as_json false q) (VList rows) = Ok shaped ->
     shape dump_json (set_as_json true q) (VList rows)
     = (s <-? dump_json shaped ;; Ok (VStr s)))
  /\ (as_objects (_output output) = true ->
      forall raw,
        shape dump_json (set_as_json true q) raw
        = shape dump_json (set_as_json false q) raw)
  /\ (as_objects (_output output) = false ->
      forall raw,
        (forall rows, raw <> VList rows) ->
        shape dump_json (set_as_json true q) raw = Ok raw).
Proof.
  intros Hout.
  assert (Hset : forall b,
             output_delegate (self (set_as_json b q))
             = Some (mkOutputDelegate
                       (mkOutput b (as_list (_output output))
                          (as_objects (_output output))))).
  { intros b. unfold set_as_json. cbn. rewrite Hout. reflexivity. }
  split; [| split].
  - intros Hobj rows shaped Hne.
    unfold shape. rewrite !Hset. cbn. rewrite Hobj.
    destruct (as_list (_output output)).
    + destruct rows as [| first rest]; [exfalso; apply Hne; reflexivity |].
      remember (comprehension dict_values (first :: rest)) as flat.
      destruct (dict_keys first) as [ks |]; cbn; [| discriminate].
      destruct (negb (length ks =? 1)%nat); [discriminate |].
      destruct flat as [vs |]; cbn; [| discriminate].
      unfold json_step. cbn. intros H. inversion H. reflexivity.
    + unfold json_step. cbn. intros H. inversion H. reflexivity.
  - intros Hobj raw. unfold shape. rewrite !Hset. cbn. rewrite Hobj.
    reflexivity.
  - intros Hobj raw Hl. unfold shape. rewrite Hset. cbn. rewrite Hobj.
    destruct raw; try reflexivity. exfalso. apply (Hl l). reflexivity.
Qed.

End Shaping.

(** ** Freezing *)

Section Freezing.

Variables W Clauses : Type.
Variable dump_json : PyVal -> Result string.
Implicit Type q : Query W Clauses.
Implicit Type w : W.

(** What [freeze] does: it resolves the querystrings once, stores them in
    a fresh instance of the same class, built from the table and the
    querystrings alone, and wraps that instance. *)
Lemma freeze_copy q qs :
  querystrings q = Ok qs ->
  exists fq,
    freeze q = Ok fq
    /\ __class__ (query fq) = __class__ q
    /\ self (query fq) = __init__ (__class__ q) (table (self q)) (Some qs)
    /\ forall in_pool w,
         FrozenQuery_run dump_json fq (Some in_pool) w
         = run dump_json (query fq) in_pool w.
Proof.
  intros Hqs. unfold freeze. rewrite Hqs. cbn.
  eexists. split; [reflexivity |]. cbn. repeat split; reflexivity.
Qed.

(** [freeze] sees of a query its class, its table and its resolved
    querystrings, and nothing else: two queries that agree on these, and
    differ in their output flags, say, have the same frozen form. *)
Lemma freeze_forgets_the_rest q1 q2 :
  __class__ q1 = __class__ q2 ->
  table (self q1) = table (self q2) ->
  querystrings q1 = querystrings q2 ->
  freeze q1 = freeze q2.
Proof.
  intros Hc Ht Hqs. unfold freeze. rewrite Hc, Ht, Hqs. reflexivity.
Qed.

(** The round trip holds for a query whose fresh copy has what the run
    looks at: the same table and output delegate, hooks that act on the
    copy as on the original, and the querystrings it was given. *)
Lemma freeze_roundtrip_when_copy_agrees q qs fq :
  querystrings q = Ok qs ->
  freeze q = Ok fq ->
  let copy := self (query fq) in
  table copy = table (self q) ->
  _frozen_querystrings copy = Some qs ->
  output_delegate copy = output_delegate (self q) ->
  _validate (__class__ q) copy = _validate (__class__ q) (self q) ->
  response_handler (__class__ q) copy
  = response_handler (__class__ q) (self q) ->
  (forall callback,
      run_callback (__class__ q) = Some callback ->
      callback copy = callback (self q)) ->
  forall in_pool w,
    FrozenQuery_run dump_json fq (Some in_pool) w
    = run dump_json q in_pool w.
Proof.
  intros Hqs Hfreeze copy Ht Hf Ho Hv Hrh Hcb in_pool w.
  unfold freeze in Hfreeze. rewrite Hqs in Hfreeze. cbn in Hfreeze.
  inversion Hfreeze as [Hfq]. subst copy. rewrite <- Hfq in *.
  cbn [query self __class__] in *. clear Hfq Hfreeze.
  set (i' := __init__ (__class__ q) (table (self q)) (Some qs)) in *.
  unfold FrozenQuery_run. cbn [query].
  assert (Hshape : forall raw,
             shape dump_json (mkQuery (__class__ q) i') raw
             = shape dump_json q raw).
  { intros raw. unfold shape, table_call. cbn [self]. rewrite Ho, Ht.
    reflexivity. }
  assert (Hcall : forall rows w0,
             call_run_callback (mkQuery (__class__ q) i') rows w0
             = call_run_callback q rows w0).
  { intros rows w0. unfold call_run_callback. cbn [self __class__].
    destruct (run_callback (__class__ q)) as [callback |] eqn:E;
      [rewrite (Hcb callback eq_refl) |]; reflexivity. }
  assert (Hproc : forall results w0,
             _process_results dump_json (mkQuery (__class__ q) i') results w0
             = _process_results dump_json q results w0).
  { intros results w0. unfold _process_results.
    unfold bind. rewrite Hcall.
    destruct (result (call_run_callback q (rebuild_rows results) w0));
      [| reflexivity].
    cbn [self __class__]. rewrite Hrh.
    destruct (result (lift _ _)); [| reflexivity].
    unfold liftR. rewrite Hshape. reflexivity. }
  assert (Hqs' : querystrings (mkQuery (__class__ q) i') = Ok qs).
  { unfold querystrings. cbn [self]. rewrite Hf. reflexivity. }
  assert (Hloop : forall engine l responses w0,
             run_for dump_json (mkQuery (__class__ q) i') engine in_pool l
               responses w0
             = run_for dump_json q engine in_pool l responses w0).
  { intros engine l. induction l as [| x rest IH]; intros responses w0;
      cbn [run_for]; [reflexivity |].
    apply bind_ext. intros results w2.
    apply bind_cong; [intros w3; apply Hproc |].
    intros response w3. apply IH. }
  unfold run. cbn [self __class__]. rewrite Hqs', Hqs, Hv, Ht.
  apply bind_ext. intros _ w1.
  destruct (db (_meta (table (self q)))) as [engine |]; [| reflexivity].
  rewrite !bind_liftR_Ok.
  destruct (length qs =? 1)%nat.
  - rewrite !bind_liftR_Ok. apply bind_ext. intros x w2.
    apply bind_ext. intros results w3. apply Hproc.
  - rewrite !bind_liftR_Ok. apply Hloop.
Qed.

End Freezing.

(** ** The frozen wrapper *)

Section Frozen.

Variables W Clauses : Type.
Implicit Type q : Query W Clauses.
Implicit Type fq : FrozenQuery W Clauses.

(** When the probe of the wrapped query returns, [__getattr__] raises an
    [AttributeError] whose message tells the two cases apart and, for an
    attribute the query has, names it. *)
Lemma frozen_getattr_messages fq name b :
  hasattr (query fq) name = Ok b ->
  FrozenQuery___getattr__ fq name
  = Raise (mkExn AttributeError
             (if b then
                "This query is frozen - " ++ name
                  ++ " is only available on unfrozen queries."
              else "Unrecognised attribute name.")).
Proof.
  intros H. unfold FrozenQuery___getattr__. rewrite H. cbn.
  destruct b; reflexivity.
Qed.

(** When the probe raises, which a property getter of the wrapped query
    can make it do, that exception is what [__getattr__] raises. *)
Lemma frozen_getattr_probe_raises fq name e :
  hasattr (query fq) name = Raise e ->
  FrozenQuery___getattr__ fq name = Raise e.
Proof.
  intros H. unfold FrozenQuery___getattr__. rewrite H. reflexivity.
Qed.

End Frozen.

(** C3, where the code departs from it.  On the frozen form of a plain
    [Query] built with its querystrings, the name of a method of the query
    and a name that nothing has get the two [AttributeError]s, but the name
    [default_querystrings] gets the [NotImplementedError] of the property
    getter that [hasattr] ran. *)
Theorem frozen_getattr_lets_getter_error_out :
  exists fq,
    freeze (mkQuery (Query_class tt)
              (Query___init__ tt (Band (Some postgres))
                 (Some [select_band])))
    = Ok fq
    /\ FrozenQuery___getattr__ fq "freeze"
       = Raise (mkExn AttributeError
                  "This query is frozen - freeze is only available on unfrozen queries.")
    /\ FrozenQuery___getattr__ fq "where"
       = Raise (mkExn AttributeError "Unrecognised attribute name.")
    /\ FrozenQuery___getattr__ fq "default_querystrings"
       = Raise (mkExn NotImplementedError EmptyString).
Proof.
  eexists. split; [reflexivity |]. repeat split; reflexivity.
Qed.

(** C2, where the code departs from it.  A query with [as_json] set,
    frozen: the copy [freeze] makes is built from the table and the
    querystrings alone, so it has no output delegate, and running it
    returns the list of rows where running the original returns (or fails
    to produce) their JSON text, on the same database and whatever the
    encoder. *)
Theorem freeze_drops_output_flags
    (dump_json : PyVal -> Result string) (w : nat) :
  let q :=
    a_query SelectBand (Some postgres) (Some (mkOutput true false false)) in
  let rows :=
    VList [VDict [("name", VStr "Pythonistas")];
           VDict [("name", VStr "Rustaceans")]] in
  exists fq,
    freeze q = Ok fq
    /\ output_delegate (self (query fq)) = None
    /\ result (FrozenQuery_run dump_json fq None w) = Ok rows
    /\ result (run dump_json q true w)
       = (s <-? dump_json rows ;; Ok (VStr s))
    /\ result (FrozenQuery_run dump_json fq None w)
       <> result (run dump_json q true w).
Proof.
  intros q rows. eexists. split; [reflexivity |].
  split; [reflexivity |].
  assert (Hf : result (FrozenQuery_run dump_json
                         (mkFrozenQuery
                            (mkQuery SelectBand
                               (Query___init__ tt (Band (Some postgres))
                                  (Some [select_band]))))
                         None w) = Ok rows) by reflexivity.
  assert (Hr : result (run dump_json q true w)
               = (s <-? dump_json rows ;; Ok (VStr s))).
  { cbn. unfold json_step. cbn. destruct (dump_json _); reflexivity. }
  split; [exact Hf |]. split; [exact Hr |].
  cbn [query self] in *. rewrite Hr.
  change (result (FrozenQuery_run dump_json _ None w)) with (Ok rows).
  destruct (dump_json rows); discriminate.
Qed.

(** ** The statements at concrete inputs *)

Lemma run_executes_in_sequence_witness :
  db (_meta (table (self (a_query TwoStatements (Some postgres) None))))
  = Some postgres
  /\ querystrings (a_query TwoStatements (Some postgres) None)
     = Ok [select_band; count_band]
  /\ trace (run toy_json (a_query TwoStatements (Some postgres) None) true 0)
     = [EvRunQuerystring select_band true; EvRunQuerystring count_band true]
  /\ world (run toy_json (a_query TwoStatements (Some postgres) None) true 0)
     = 2.
Proof.
  split; [reflexivity |]. split; [reflexivity |].
  pose proof (@run_executes_in_sequence nat unit toy_json
                (a_query TwoStatements (Some postgres) None) true postgres
                [select_band; count_band] eq_refl eq_refl 0) as H.
  cbn zeta in H. destruct H as [_ [[Heq _] [_ Htrace]]].
  - cbn. lia.
  - split.
    + apply (Htrace _ eq_refl).
    + rewrite Heq. reflexivity.
Defined.

Lemma run_without_engine_fails_fast_witness :
  db (_meta (table (self (a_query SelectBand None None)))) = None
  /\ result (run toy_json (a_query SelectBand None None) true 0)
     = Raise (mkExn ValueError "Table band has no db defined in _meta")
  /\ trace (run toy_json (a_query SelectBand None None) true 0) = [].
Proof.
  split; [reflexivity |].
  destruct (@run_without_engine_fails_fast nat unit toy_json
              (a_query SelectBand None None) true 0 eq_refl)
    as [_ [Htrace [Hresult _]]].
  split.
  - apply (Hresult 0 eq_refl).
  - exact Htrace.
Defined.

Lemma run_sync_never_pools_witness :
  trace (run_sync toy_json (a_query SelectBand (Some postgres) None)
           true None 0)
  = [EvRunQuerystring select_band false; EvPrintDuration].
Proof.
  destruct (@run_sync_never_pools nat unit toy_json
              (a_query SelectBand (Some postgres) None) true None 0)
    as [_ [H _]].
  destruct (H eq_refl) as [_ [_ Htrace]].
  rewrite Htrace. reflexivity.
Defined.

Lemma as_list_requires_one_key_witness :
  _process_results toy_json
    (a_query SelectBand (Some postgres) (Some (mkOutput false true false)))
    [[("name", VStr "Pythonistas"); ("band$manager", VStr "Guido")];
     [("name", VStr "Rustaceans"); ("band$manager", VStr "Graydon")]] 0
  = mkOutcome
      (Raise (mkExn ValueError "Each row returned more than one value")) 0 [].
Proof.
  apply (@as_list_requires_one_key nat unit toy_json
           (a_query SelectBand (Some postgres)
              (Some (mkOutput false true false)))
           (mkOutputDelegate (mkOutput false true false))
           _ [("name", VStr "Rustaceans"); ("band$manager", VStr "Graydon")]).
  - reflexivity.
  - reflexivity.
  - reflexivity.
  - right. left. reflexivity.
  - intros r [<- | [<- | []]]; reflexivity.
  - apply Query_hooks_pass; reflexivity.
  - exists "name", "band$manager". cbn. split; [left; reflexivity |].
    split; [right; left; reflexivity | discriminate].
Defined.

Lemma as_list_empty_result_witness :
  _process_results toy_json
    (a_query SelectBand (Some postgres) (Some (mkOutput true true false)))
    [] 0
  = mkOutcome (Ok (VList [])) 0 []
  /\ result (run toy_json
               (a_query SelectBand (Some (answering "sqlite" []))
                  (Some (mkOutput true true false)))
               true 0)
     = Ok (VList []).
Proof.
  split.
  - apply (@as_list_empty_result nat unit toy_json
             (a_query SelectBand (Some postgres)
                (Some (mkOutput true true false)))
             (mkOutputDelegate (mkOutput true true false)) 0 0);
      [reflexivity | reflexivity | apply Query_hooks_pass; reflexivity].
  - refine (proj2 (@as_list_empty_result nat unit toy_json
                     (a_query SelectBand (Some (answering "sqlite" []))
                        (Some (mkOutput true true false)))
                     (mkOutputDelegate (mkOutput true true false)) 1 1
                     eq_refl eq_refl _)
              (answering "sqlite" []) select_band true 0 0
              eq_refl eq_refl eq_refl eq_refl).
    apply Query_hooks_pass; reflexivity.
Defined.

Lemma as_objects_shaping_witness :
  result (_process_results toy_json
            (a_query SelectBand (Some postgres)
               (Some (mkOutput false false true)))
            band_rows 0)
  = Ok (VList [VObj "Band" [("name", VStr "Pythonistas")];
               VObj "Band" [("name", VStr "Rustaceans")]])
  /\ result (_process_results toy_json
               (a_query FirstBand (Some postgres)
                  (Some (mkOutput false false true)))
               band_rows 0)
     = Ok (VObj "Band" [("name", VStr "Pythonistas")])
  /\ result (_process_results toy_json
               (a_query FirstBand (Some postgres)
                  (Some (mkOutput false false true)))
               [] 0)
     = Ok VNone.
Proof.
  split; [| split].
  - refine (proj1 (proj2 (@as_objects_shaping nat unit toy_json
                            (a_query SelectBand (Some postgres)
                               (Some (mkOutput false false true)))
                            (mkOutputDelegate (mkOutput false false true))
                            band_rows 0 _ 0 eq_refl eq_refl
                            (hooks_pass_return _)))
              _ _ eq_refl _).
    + apply Query_hooks_pass; reflexivity.
    + repeat constructor; eexists; split; reflexivity.
  - refine (proj1 (proj2 (proj2 (proj2
              (@as_objects_shaping nat unit toy_json
                 (a_query FirstBand (Some postgres)
                    (Some (mkOutput false false true)))
                 (mkOutputDelegate (mkOutput false false true))
                 band_rows 0 (VDict [("name", VStr "Pythonistas")]) 0
                 eq_refl eq_refl _))))
              _ eq_refl).
    eexists _, 0. split; reflexivity.
  - refine (proj1 (proj2 (proj2
              (@as_objects_shaping nat unit toy_json
                 (a_query FirstBand (Some postgres)
                    (Some (mkOutput false false true)))
                 (mkOutputDelegate (mkOutput false false true))
                 [] 0 VNone 0 eq_refl eq_refl _)))
              eq_refl).
    eexists _, 0. split; reflexivity.
Defined.

Lemma as_json_serializes_lists_witness :
  shape toy_json
    (set_as_json true
       (a_query SelectBand (Some postgres)
          (Some (mkOutput false true false))))
    (VList [VDict [("name", VStr "Pythonistas")]])
  = Ok (VStr "[...]").
Proof.
  apply (proj1 (@as_json_serializes_lists nat unit toy_json
                  (a_query SelectBand (Some postgres)
                     (Some (mkOutput false true false)))
                  (mkOutputDelegate (mkOutput false true false)) eq_refl)
           eq_refl
           [VDict [("name", VStr "Pythonistas")]]
           (VList [VStr "Pythonistas"])).
  - intros _. discriminate.
  - reflexivity.
Defined.

(** ** Where the statements of the specification fail *)

(** C6 as stated fails: a row of two columns, [a$b] and [a.b], is rebuilt
    under the one key [a.b], passes the check, and is flattened to its last
    value. *)
Lemma as_list_two_columns_under_one_key :
  let row : Row := [("a$b", VInt 1); ("a.b", VInt 2)] in
  length row = 2
  /\ NoDup (keys row)
  /\ _process_results toy_json
       (a_query SelectBand (Some postgres)
          (Some (mkOutput false true false)))
       [row] 0
     = mkOutcome (Ok (VList [VInt 2])) 0 [].
Proof.
  cbn zeta. split; [reflexivity |]. split; [| reflexivity].
  constructor.
  - cbn. intros [H | []]. discriminate H.
  - constructor; [intros [] | constructor].
Qed.

(** C9 as stated fails: with [as_json] set, a query that also has
    [as_objects] set returns the instances, not their text. *)
Lemma as_json_not_orthogonal :
  as_json (mkOutput true false true) = true
  /\ result (_process_results toy_json
               (a_query SelectBand (Some postgres)
                  (Some (mkOutput true false true)))
               band_rows 0)
     = Ok (VList [VObj "Band" [("name", VStr "Pythonistas")];
                  VObj "Band" [("name", VStr "Rustaceans")]]).
Proof. split; reflexivity. Qed.

(** Nor is a single row serialized, as the handler of a [first()] query
    returns it. *)
Lemma as_json_leaves_single_row :
  result (_process_results toy_json
            (a_query FirstBand (Some postgres)
               (Some (mkOutput true false false)))
            band_rows 0)
  = Ok (VDict [("name", VStr "Pythonistas")]).
Proof. reflexivity. Qed.

(** * Further properties of the module *)

(** ** Rebuilding the rows *)

Lemma occurs_replace (old new : ascii) s :
  old <> new -> occurs old (replace old new s) = false.
Proof.
  intros Hne. induction s as [| c rest IH]; cbn; [reflexivity |].
  rewrite IH, orb_false_r.
  destruct (Ascii.eqb_spec c old) as [-> | Hc].
  - apply Ascii.eqb_neq. congruence.
  - apply Ascii.eqb_neq. exact Hc.
Qed.

Lemma replace_absent (old new : ascii) s :
  occurs old s = false -> replace old new s = s.
Proof.
  induction s as [| c rest IH]; cbn; [reflexivity |].
  intros H. apply orb_false_elim in H as [Hc Hrest].
  rewrite Hc, (IH Hrest). reflexivity.
Qed.

Lemma dict_set_key_set d k v k' :
  In k' (map fst (dict_set d k v)) <-> In k' (map fst d) \/ k' = k.
Proof. apply (dict_set_keys (fun _ => Ok EmptyString)). Qed.

Lemma fold_dict_set_key_set (kvs d : list (string * PyVal)) k :
  In k (map fst (fold_left (fun d kv => dict_set d (fst kv) (snd kv)) kvs d))
  <-> In k (map fst d) \/ In k (map fst kvs).
Proof. apply (fold_dict_set_keys (fun _ => Ok EmptyString)). Qed.

Lemma dict_set_NoDup d k v :
  NoDup (map fst d) -> NoDup (map fst (dict_set d k v)).
Proof.
  induction d as [| [k0 v0] rest IH]; cbn; intros Hnd.
  - constructor; [intros [] | constructor].
  - inversion Hnd as [| ? ? Hnotin Hrest]; subst.
    destruct (String.eqb_spec k0 k) as [-> | Hne]; cbn.
    + constructor; assumption.
    + constructor; [| apply IH; exact Hrest].
      rewrite dict_set_key_set.
      intros [Hin | Heq]; [contradiction | congruence].
Qed.

Lemma dict_zip_NoDup ks vs : NoDup (map fst (dict_zip ks vs)).
Proof.
  unfold dict_zip.
  assert (H : forall kvs d,
             NoDup (map fst d) ->
             NoDup (map fst (fold_left
                               (fun d kv => dict_set d (fst kv) (snd kv))
                               kvs d))).
  { induction kvs as [| [k v] rest IH]; intros d Hd; cbn;
      [exact Hd | apply IH, dict_set_NoDup, Hd]. }
  apply H. constructor.
Qed.

Lemma dict_zip_keys_among ks vs k :
  In k (map fst (dict_zip ks vs)) -> In k ks.
Proof.
  unfold dict_zip. rewrite fold_dict_set_key_set. cbn.
  intros [[] | Hin].
  apply in_map_iff in Hin as [[k' v] [Hk Hin]]. cbn in Hk. subst k'.
  apply in_combine_l in Hin. exact Hin.
Qed.

(** A dict built from a row of distinct names is the row. *)
Lemma dict_zip_row (r : Row) :
  NoDup (keys r) -> dict_zip (keys r) (values r) = r.
Proof.
  unfold dict_zip, keys, values.
  assert (H : forall (r d : Row),
             NoDup (map fst d ++ map fst r) ->
             fold_left (fun d kv => dict_set d (fst kv) (snd kv))
               (combine (map fst r) (map snd r)) d
             = d ++ r).
  { clear r. induction r as [| [k v] rest IH]; intros d Hnd; cbn.
    - rewrite app_nil_r. reflexivity.
    - assert (Hset : dict_set d k v = d ++ [(k, v)]).
      { apply NoDup_remove_2 in Hnd.
        assert (Hk : ~ In k (map fst d)).
        { intros Hin. apply Hnd. apply in_or_app. left. exact Hin. }
        clear - Hk. induction d as [| [k0 v0] d IHd]; cbn; [reflexivity |].
        destruct (String.eqb_spec k0 k) as [-> | _].
        - exfalso. apply Hk. left. reflexivity.
        - rewrite IHd; [reflexivity |].
          intros Hin. apply Hk. right. exact Hin. }
      rewrite Hset, IH.
      + rewrite <- app_assoc. reflexivity.
      + rewrite map_app, <- app_assoc. exact Hnd. }
  intros Hnd. apply (H r []). exact Hnd.
Qed.

(** X1.  [_process_results] rebuilds one dict per row; each dict has
    distinct keys, all of them among the rewritten names of the FIRST
    row's columns, and none of them contains a [$]. *)
Theorem rebuilt_rows_keys (first : Row) (rest : list Row) :
  length (rebuild_rows (first :: rest)) = length (first :: rest)
  /\ forall v,
       In v (rebuild_rows (first :: rest)) ->
       exists d,
         v = VDict d
         /\ NoDup (map fst d)
         /\ forall k,
              In k (map fst d) ->
              occurs "$" k = false
              /\ exists c, In c (keys first) /\ k = replace "$" "." c.
Proof.
  split.
  - unfold rebuild_rows. apply length_map.
  - intros v Hin. unfold rebuild_rows in Hin.
    apply in_map_iff in Hin as [row [Hv _]].
    eexists. split; [symmetry; exact Hv |].
    split; [apply dict_zip_NoDup |].
    intros k Hk. apply dict_zip_keys_among in Hk.
    apply in_map_iff in Hk as [c [Hc Hin]]. subst k.
    split.
    + apply occurs_replace. discriminate.
    + exists c. split; [exact Hin | reflexivity].
Qed.

Lemma rebuilt_rows_keys_witness :
  In (VDict [("band.manager", VStr "Guido")])
     (rebuild_rows [[("band$manager", VStr "Guido")]])
  /\ occurs "$" "band.manager" = false.
Proof.
  split; [left; reflexivity |].
  destruct (proj2 (rebuilt_rows_keys [("band$manager", VStr "Guido")] [])
              (VDict [("band.manager", VStr "Guido")])
              (or_introl eq_refl))
    as [d [Hd [_ Hk]]].
  injection Hd as <-.
  apply (Hk "band.manager"). left. reflexivity.
Defined.

(** X2.  Rows that share distinct column names without a [$] are rebuilt
    as they are; a query without output delegate, with the hooks of
    [Query], returns them as the list of its dicts. *)
Theorem clean_rows_returned_as_dicts {W Clauses : Type}
    (dump_json : PyVal -> Result string) (q : Query W Clauses)
    (first : Row) (rest : list Row) (w w' : W) :
  NoDup (keys first) ->
  (forall k, In k (keys first) -> occurs "$" k = false) ->
  (forall r, In r rest -> keys r = keys first) ->
  rebuild_rows (first :: rest) = map VDict (first :: rest)
  /\ (output_delegate (self q) = None ->
      hooks_pass q (rebuild_rows (first :: rest)) w w' ->
      _process_results dump_json q (first :: rest) w
      = mkOutcome (Ok (VList (map VDict (first :: rest)))) w' []).
Proof.
  intros Hnd Hclean Hsame.
  assert (Hkeys : map (replace "$" ".") (keys first) = keys first).
  { clear - Hclean. induction (keys first) as [| k ks IH]; cbn;
      [reflexivity |].
    rewrite replace_absent by (apply Hclean; left; reflexivity).
    rewrite IH; [reflexivity |].
    intros k' Hin. apply Hclean. right. exact Hin. }
  assert (E : rebuild_rows (first :: rest) = map VDict (first :: rest)).
  { unfold rebuild_rows. rewrite Hkeys. apply map_ext_in.
    intros r Hin. f_equal.
    assert (Hr : keys r = keys first).
    { destruct Hin as [<- | Hin]; [reflexivity | apply Hsame, Hin]. }
    rewrite <- Hr. apply dict_zip_row. rewrite Hr. exact Hnd. }
  split; [exact E |].
  intros Hout Hpass.
  rewrite (_process_results_shape dump_json (first :: rest)
             (hooks_pass_return Hpass)).
  unfold shape. rewrite Hout, E. reflexivity.
Qed.

Lemma clean_rows_returned_as_dicts_witness :
  _process_results toy_json (a_query SelectBand (Some postgres) None)
    band_rows 0
  = mkOutcome
      (Ok (VList [VDict [("name", VStr "Pythonistas")];
                  VDict [("name", VStr "Rustaceans")]])) 0 [].
Proof.
  refine (proj2 (@clean_rows_returned_as_dicts nat unit toy_json
                   (a_query SelectBand (Some postgres) None)
                   [("name", VStr "Pythonistas")]
                   [[("name", VStr "Rustaceans")]] 0 0 _ _ _)
            eq_refl _).
  - constructor; [intros [] | constructor].
  - intros k [<- | []]. reflexivity.
  - intros r [<- | []]. reflexivity.
  - apply Query_hooks_pass; reflexivity.
Defined.

(** X3.  The rows are keyed by the names of the first row: of the others
    only the values count, whatever their own names are. *)
Theorem rows_keyed_by_first_row (results results' : list Row) :
  keys (hd [] results) = keys (hd [] results') ->
  map values results = map values results' ->
  rebuild_rows results = rebuild_rows results'.
Proof.
  intros Hk Hv.
  destruct results as [| first rest], results' as [| first' rest'];
    try discriminate Hv; [reflexivity |].
  cbn [hd] in Hk. unfold rebuild_rows. rewrite Hk.
  set (ks := map (replace "$" ".") (keys first')).
  transitivity (map (fun vs => VDict (dict_zip ks vs))
                    (map values (first :: rest))).
  - rewrite map_map. reflexivity.
  - rewrite Hv, map_map. reflexivity.
Qed.

Lemma rows_keyed_by_first_row_witness :
  rebuild_rows [[("name", VStr "a")]; [("id", VStr "b")]]
  = rebuild_rows [[("name", VStr "a")]; [("name", VStr "b")]].
Proof.
  apply rows_keyed_by_first_row; reflexivity.
Defined.

(** ** Shaping with the output flags *)

Lemma comprehension_dict_values (ds : list (list (string * PyVal))) :
  comprehension dict_values (map VDict ds) = Ok (map (map snd) ds).
Proof.
  induction ds as [| d rest IH]; cbn; [reflexivity |].
  rewrite IH. reflexivity.
Qed.

Lemma shape_as_list_chain {W Clauses : Type}
    (dump_json : PyVal -> Result string) (q : Query W Clauses)
    (output : OutputDelegate) (d0 : list (string * PyVal))
    (ds : list (list (string * PyVal))) :
  output_delegate (self q) = Some output ->
  as_objects (_output output) = false ->
  as_list (_output output) = true ->
  length d0 = 1 ->
  shape dump_json q (VList (map VDict (d0 :: ds)))
  = json_step dump_json output (VList (flat_map (map snd) (d0 :: ds))).
Proof.
  intros Hout Hobj Hlist Hlen.
  unfold shape. rewrite Hout, Hobj, Hlist.
  cbn [map dict_keys rbind]. rewrite length_map, Hlen. cbn [Nat.eqb negb].
  change (VDict d0 :: map VDict ds) with (map VDict (d0 :: ds)).
  rewrite comprehension_dict_values. cbn [rbind].
  rewrite <- flat_map_concat_map. reflexivity.
Qed.

(** X4.  Under [as_list], only the first row is checked for having one
    key: when it has, the values of ALL the dicts are chained, whatever
    the number of keys of the later ones, so that the flat list may be
    longer than the list of rows; the [as_json] step then applies. *)
Theorem as_list_checks_first_row_only {W Clauses : Type}
    (dump_json : PyVal -> Result string) (q : Query W Clauses)
    (output : OutputDelegate) (d0 : list (string * PyVal))
    (ds : list (list (string * PyVal))) :
  output_delegate (self q) = Some output ->
  as_objects (_output output) = false ->
  as_list (_output output) = true ->
  length d0 = 1 ->
  shape dump_json q (VList (map VDict (d0 :: ds)))
  = json_step dump_json output (VList (flat_map (map snd) (d0 :: ds)))
  /\ length (flat_map (map snd) (d0 :: ds))
     = 1 + list_sum (map (@length _) ds).
Proof.
  intros Hout Hobj Hlist Hlen.
  split; [apply shape_as_list_chain; assumption |].
  cbn [flat_map]. rewrite length_app, length_map, Hlen. f_equal.
  induction ds as [| d rest IH]; cbn; [reflexivity |].
  rewrite length_app, length_map, IH. reflexivity.
Qed.

Lemma as_list_checks_first_row_only_witness :
  shape toy_json
    (a_query SelectBand (Some postgres) (Some (mkOutput false true false)))
    (VList [VDict [("name", VStr "a")];
            VDict [("name", VStr "b"); ("id", VInt 2)]])
  = Ok (VList [VStr "a"; VStr "b"; VInt 2]).
Proof.
  apply (proj1 (@as_list_checks_first_row_only nat unit toy_json
                  (a_query SelectBand (Some postgres)
                     (Some (mkOutput false true false)))
                  (mkOutputDelegate (mkOutput false true false))
                  [("name", VStr "a")] [[("name", VStr "b"); ("id", VInt 2)]]
                  eq_refl eq_refl eq_refl eq_refl)).
Defined.

(** X5.  A result set of one column, shaped under [as_list] by a query
    whose hooks pass the rows through, is the list of the column's values
    in the order of the rows (as JSON text when [as_json] is set too). *)
Theorem as_list_flattens_single_column {W Clauses : Type}
    (dump_json : PyVal -> Result string) (q : Query W Clauses)
    (output : OutputDelegate) (column : string) (v : PyVal)
    (vs : list PyVal) (w w' : W) :
  let results := map (fun x => [(column, x)]) (v :: vs) in
  output_delegate (self q) = Some output ->
  as_objects (_output output) = false ->
  as_list (_output output) = true ->
  hooks_pass q (rebuild_rows results) w w' ->
  _process_results dump_json q results w
  = mkOutcome (json_step dump_json output (VList (v :: vs))) w' [].
Proof.
  intros results Hout Hobj Hlist Hpass.
  rewrite (_process_results_shape dump_json results
             (hooks_pass_return Hpass)).
  f_equal.
  assert (E : rebuild_rows results
              = map VDict
                  ([(replace "$" "." column, v)]
                     :: map (fun x => [(replace "$" "." column, x)]) vs)).
  { unfold results, rebuild_rows. cbn [map keys values fst snd].
    rewrite !map_map. reflexivity. }
  rewrite E.
  rewrite (shape_as_list_chain dump_json q
             [(replace "$" "." column, v)]
             (map (fun x => [(replace "$" "." column, x)]) vs)
             Hout Hobj Hlist eq_refl).
  assert (F : forall (c : string) (l : list PyVal),
             flat_map (map snd) (map (fun x => [(c, x)]) l) = l).
  { intros c l. induction l as [| x rest IH]; cbn;
      [reflexivity | rewrite IH; reflexivity]. }
  change ([(replace "$" "." column, v)]
            :: map (fun x => [(replace "$" "." column, x)]) vs)
    with (map (fun x => [(replace "$" "." column, x)]) (v :: vs)).
  rewrite F. reflexivity.
Qed.

Lemma as_list_flattens_single_column_witness :
  _process_results toy_json
    (a_query SelectBand (Some postgres) (Some (mkOutput false true false)))
    band_rows 0
  = mkOutcome (Ok (VList [VStr "Pythonistas"; VStr "Rustaceans"])) 0 [].
Proof.
  apply (@as_list_flattens_single_column nat unit toy_json
           (a_query SelectBand (Some postgres)
              (Some (mkOutput false true false)))
           (mkOutputDelegate (mkOutput false true false))
           "name" (VStr "Pythonistas") [VStr "Rustaceans"] 0 0);
    try reflexivity.
  apply Query_hooks_pass; reflexivity.
Defined.

(** X6.  Under [as_objects], the rows are turned into instances from left
    to right and the first row that the table constructor refuses (or that
    is no mapping) ends the shaping with its exception: no partial list
    is returned. *)
Theorem as_objects_first_failure {W Clauses : Type}
    (dump_json : PyVal -> Result string) (q : Query W Clauses)
    (output : OutputDelegate) (before : list PyVal) (objs : list PyVal)
    (row : PyVal) (after : list PyVal) (e : Exn) :
  output_delegate (self q) = Some output ->
  as_objects (_output output) = true ->
  Forall2 (fun r obj => table_call q r = Ok obj) before objs ->
  table_call q row = Raise e ->
  shape dump_json q (VList (before ++ row :: after)) = Raise e.
Proof.
  intros Hout Hobj Hbefore Hrow.
  unfold shape. rewrite Hout, Hobj.
  assert (E : comprehension (table_call q) (before ++ row :: after)
              = Raise e).
  { induction Hbefore as [| r obj rs os Hr _ IH]; cbn.
    - rewrite Hrow. reflexivity.
    - rewrite Hr. cbn. rewrite IH. reflexivity. }
  rewrite E. reflexivity.
Qed.

Lemma as_objects_first_failure_witness :
  shape toy_json
    (a_query SelectBand (Some postgres) (Some (mkOutput false false true)))
    (VList [VDict [("name", VStr "a")]; VStr "b"; VDict []])
  = Raise (mkExn TypeError "argument after ** must be a mapping").
Proof.
  apply (@as_objects_first_failure nat unit toy_json
           (a_query SelectBand (Some postgres)
              (Some (mkOutput false false true)))
           (mkOutputDelegate (mkOutput false false true))
           [VDict [("name", VStr "a")]]
           [VObj "Band" [("name", VStr "a")]]
           (VStr "b") [VDict []]).
  - reflexivity.
  - reflexivity.
  - repeat constructor.
  - reflexivity.
Defined.

(** X7.  On an empty result set, [as_json] without [as_list] gives the
    text of the empty list, but together with [as_list] it gives the empty
    list itself: the early [return []] comes before the [as_json] step. *)
Theorem empty_result_and_as_json {W Clauses : Type}
    (dump_json : PyVal -> Result string) (q : Query W Clauses)
    (output : OutputDelegate) (w w' : W) :
  output_delegate (self q) = Some output ->
  as_objects (_output output) = false ->
  as_json (_output output) = true ->
  hooks_pass q [] w w' ->
  _process_results dump_json q [] w
  = mkOutcome
      (if as_list (_output output) then Ok (VList [])
       else s <-? dump_json (VList []) ;; Ok (VStr s))
      w' [].
Proof.
  intros Hout Hobj Hjson Hpass.
  change (@nil PyVal) with (rebuild_rows []) in Hpass.
  rewrite (_process_results_shape dump_json [] (hooks_pass_return Hpass)).
  f_equal. unfold shape, json_step. cbn [rebuild_rows].
  rewrite Hout, Hobj, Hjson.
  destruct (as_list (_output output)); reflexivity.
Qed.

Lemma empty_result_and_as_json_witness :
  _process_results toy_json
    (a_query SelectBand (Some postgres) (Some (mkOutput true false false)))
    [] 0
  = mkOutcome (Ok (VStr "[]")) 0 []
  /\ _process_results toy_json
       (a_query SelectBand (Some postgres) (Some (mkOutput true true false)))
       [] 0
     = mkOutcome (Ok (VList [])) 0 [].
Proof.
  split.
  - apply (@empty_result_and_as_json nat unit toy_json
             (a_query SelectBand (Some postgres)
                (Some (mkOutput true false false)))
             (mkOutputDelegate (mkOutput true false false)) 0 0);
      try reflexivity.
    apply Query_hooks_pass; reflexivity.
  - apply (@empty_result_and_as_json nat unit toy_json
             (a_query SelectBand (Some postgres)
                (Some (mkOutput true true false)))
             (mkOutputDelegate (mkOutput true true false)) 0 0);
      try reflexivity.
    apply Query_hooks_pass; reflexivity.
Defined.

(** ** Failures and edge cases of [run] *)

Section RunEdges.

Variables W Clauses : Type.
Variable dump_json : PyVal -> Result string.
Implicit Type q : Query W Clauses.
Implicit Type w : W.

(** X8.  When the validation hook raises, [run] raises that exception
    and stops there: nothing is resolved and nothing is sent, with or
    without a bound engine. *)
Theorem run_validation_blocks q in_pool w e w' :
  _validate (__class__ q) (self q) w = (Raise e, w') ->
  run dump_json q in_pool w = mkOutcome (Raise e) w' [].
Proof.
  intros Hv. unfold run, bind, lift. rewrite Hv. reflexivity.
Qed.

(** X9.  On a bound engine, an exception of the resolution of the
    querystrings (an unsupported engine tag, a producer that fails) is the
    outcome of [run], and nothing is sent to the engine. *)
Theorem run_resolution_failure q in_pool engine e w w' :
  db (_meta (table (self q))) = Some engine ->
  querystrings q = Raise e ->
  _validate (__class__ q) (self q) w = (Ok tt, w') ->
  run dump_json q in_pool w = mkOutcome (Raise e) w' [].
Proof.
  intros Hdb Hqs Hv. unfold run, bind, lift. rewrite Hv, Hdb, Hqs.
  reflexivity.
Qed.

(** X10.  A query that resolves to no statement returns the empty list
    without a call to the engine. *)
Theorem run_no_statement q in_pool engine w w' :
  db (_meta (table (self q))) = Some engine ->
  querystrings q = Ok [] ->
  _validate (__class__ q) (self q) w = (Ok tt, w') ->
  run dump_json q in_pool w = mkOutcome (Ok (VList [])) w' [].
Proof.
  intros Hdb Hqs Hv. unfold run, bind, lift. rewrite Hv, Hdb, Hqs.
  reflexivity.
Qed.

Lemma each_in_turn_cons q engine b x rest w :
  each_in_turn dump_json q engine b (x :: rest) w
  = (output <- one_statement dump_json q engine b x ;;
     outputs <- each_in_turn dump_json q engine b rest ;;
     ret (output :: outputs)) w.
Proof.
  cbn [each_in_turn]. unfold one_statement. rewrite bind_assoc. reflexivity.
Qed.

(** When a statement fails after the ones before it went through, the
    statements after it are not sent. *)
Lemma each_in_turn_stops q engine b x after e before :
  forall w outputs,
    result (each_in_turn dump_json q engine b before w) = Ok outputs ->
    result (one_statement dump_json q engine b x
              (world (each_in_turn dump_json q engine b before w)))
    = Raise e ->
    let o := each_in_turn dump_json q engine b (before ++ x :: after) w in
    result o = Raise e
    /\ trace o = map (fun y => EvRunQuerystring y b) (before ++ [x]).
Proof.
  induction before as [| y before IH]; intros w outputs Hok Hfail; cbn zeta.
  - cbn [app]. rewrite each_in_turn_cons.
    cbn in Hfail. rewrite result_bind, trace_bind, Hfail.
    split; [reflexivity | apply trace_one_statement].
  - cbn [app]. rewrite each_in_turn_cons.
    rewrite each_in_turn_cons in Hok, Hfail.
    rewrite result_bind in Hok.
    rewrite result_bind, trace_bind, trace_one_statement.
    unfold bind at 1 in Hfail.
    destruct (result (one_statement dump_json q engine b y w))
      as [output | e0]; [| discriminate Hok].
    cbn [world] in Hfail.
    set (w1 := world (one_statement dump_json q engine b y w)) in *.
    rewrite result_bind in Hok.
    rewrite result_bind, trace_bind.
    unfold bind at 1 in Hfail.
    destruct (result (each_in_turn dump_json q engine b before w1))
      as [outs |] eqn:Hbefore; [| discriminate Hok].
    cbn [world ret] in Hfail.
    destruct (IH w1 outs Hbefore Hfail) as [Hr Ht]. cbn zeta in Hr, Ht.
    rewrite Hr, Ht. split; reflexivity.
Qed.

(** X11.  When a statement fails, in the engine or in the shaping of its
    rows, after the statements before it went through, [run] raises that
    exception, and the engine has been sent the statements up to the
    failing one and none of those after it; nothing undoes the earlier
    ones. *)
Theorem run_stops_at_first_failure q in_pool engine before x after e w w' :
  db (_meta (table (self q))) = Some engine ->
  querystrings q = Ok (before ++ x :: after) ->
  _validate (__class__ q) (self q) w = (Ok tt, w') ->
  forall outputs,
    result (each_in_turn dump_json q engine in_pool before w') = Ok outputs ->
    result (one_statement dump_json q engine in_pool x
              (world (each_in_turn dump_json q engine in_pool before w')))
    = Raise e ->
    let o := run dump_json q in_pool w in
    result o = Raise e
    /\ trace o = map (fun y => EvRunQuerystring y in_pool) (before ++ [x]).
Proof.
  intros Hdb Hqs Hv outputs Hok Hfail o. subst o.
  rewrite (run_resolved dump_json q in_pool w Hdb Hqs).
  assert (Hlift : forall A (k : unit -> M W A),
             bind (lift (_validate (__class__ q) (self q))) k w = k tt w').
  { intros A k. unfold bind, lift. rewrite Hv. reflexivity. }
  rewrite Hlift.
  destruct (each_in_turn_stops q engine in_pool x after before w'
              Hok Hfail) as [Hr Ht].
  cbn zeta in Hr, Ht.
  destruct before as [| y before'].
  - destruct after as [| z after'].
    + cbn in Hfail |- *. rewrite Hfail.
      split; [reflexivity | apply trace_one_statement].
    + cbn [app] in Hr, Ht |- *. rewrite result_bind, trace_bind.
      rewrite Hr, Ht. split; reflexivity.
  - assert (E : match (y :: before') ++ x :: after with
                | [x0] => one_statement dump_json q engine in_pool x0
                | _ =>
                    outs <- each_in_turn dump_json q engine in_pool
                              ((y :: before') ++ x :: after) ;;
                    ret (VList outs)
                end
                = (outs <- each_in_turn dump_json q engine in_pool
                             ((y :: before') ++ x :: after) ;;
                   ret (VList outs))).
    { cbn [app]. destruct (before' ++ x :: after) eqn:Eapp;
        [destruct before'; discriminate Eapp | reflexivity]. }
    rewrite E, result_bind, trace_bind, Hr, Ht. split; reflexivity.
Qed.

End RunEdges.

Lemma run_validation_blocks_witness :
  run toy_json (a_query GuardedDelete (Some postgres) None) true 0
  = mkOutcome
      (Raise (mkExn (OtherError "DeletionError") "no where clause")) 0 [].
Proof.
  apply (@run_validation_blocks nat unit toy_json
           (a_query GuardedDelete (Some postgres) None) true 0).
  reflexivity.
Defined.

Lemma run_resolution_failure_witness :
  run toy_json
    (a_query SelectBand (Some (answering "mysql" band_rows)) None) true 0
  = mkOutcome
      (Raise (mkExn Exception_ "No querystring found for the mysql engine."))
      0 [].
Proof.
  apply (@run_resolution_failure nat unit toy_json
           (a_query SelectBand (Some (answering "mysql" band_rows)) None)
           true (answering "mysql" band_rows));
    reflexivity.
Defined.

Lemma run_no_statement_witness :
  run toy_json (a_query NoStatement (Some postgres) None) true 0
  = mkOutcome (Ok (VList [])) 0 [].
Proof.
  apply (@run_no_statement nat unit toy_json
           (a_query NoStatement (Some postgres) None) true postgres);
    reflexivity.
Defined.

Lemma run_stops_at_first_failure_witness :
  let q :=
    mkQuery (Query_class tt)
      (Query___init__ tt
         (Band (Some (failing_on "SELECT count(id) FROM band")))
         (Some [select_band; count_band; select_band])) in
  result (run toy_json q true 0)
  = Raise (mkExn (OtherError "PostgresError") "syntax error")
  /\ trace (run toy_json q true 0)
     = [EvRunQuerystring select_band true; EvRunQuerystring count_band true].
Proof.
  cbn zeta.
  apply (@run_stops_at_first_failure nat unit toy_json
           (mkQuery (Query_class tt)
              (Query___init__ tt
                 (Band (Some (failing_on "SELECT count(id) FROM band")))
                 (Some [select_band; count_band; select_band])))
           true (failing_on "SELECT count(id) FROM band")
           [select_band] count_band [select_band]
           (mkExn (OtherError "PostgresError") "syntax error") 0 0
           eq_refl eq_refl eq_refl
           [VList [VDict [("name", VStr "Pythonistas")];
                   VDict [("name", VStr "Rustaceans")]]]
           eq_refl eq_refl).
Defined.

(** ** Resolution, freezing and string conversion *)

Section FreezeEdges.

Variables W Clauses : Type.
Variable dump_json : PyVal -> Result string.
Variable QueryString___str__ : QueryString -> string.
Implicit Type q : Query W Clauses.
Implicit Type fq : FrozenQuery W Clauses.
Implicit Type w : W.

(** X12.  On a table without engine, a query that has to resolve its
    querystrings cannot: [querystrings], [freeze] and [__str__] raise
    [ValueError("Engine isn't defined.")].  A query built with frozen
    querystrings needs no engine for any of the three. *)
Theorem resolution_without_engine q :
  db (_meta (table (self q))) = None ->
  let undefined := mkExn ValueError "Engine isn't defined." in
  (_frozen_querystrings (self q) = None ->
   querystrings q = Raise undefined
   /\ freeze q = Raise undefined
   /\ Query___str__ QueryString___str__ q = Raise undefined)
  /\ (forall qs,
         _frozen_querystrings (self q) = Some qs ->
         querystrings q = Ok qs
         /\ (exists fq, freeze q = Ok fq)
         /\ Query___str__ QueryString___str__ q
            = Ok (join "; " (map QueryString___str__ qs))).
Proof.
  intros Hdb undefined. split.
  - intros Hf.
    assert (E : querystrings q = Raise undefined).
    { unfold querystrings, Query_engine_type. rewrite Hf, Hdb. reflexivity. }
    unfold freeze, Query___str__. rewrite E. repeat split; reflexivity.
  - intros qs Hf.
    assert (E : querystrings q = Ok qs).
    { unfold querystrings. rewrite Hf. reflexivity. }
    unfold freeze, Query___str__. rewrite E. cbn.
    split; [reflexivity |]. split; [eexists |]; reflexivity.
Qed.

(** X13.  The default producer is not guarded: when the producer of the
    dialect signals [NotImplementedError] and the default producer raises,
    the latter's exception is the result.  So a query whose class leaves
    the producers to [Query] resolves, on a postgres or sqlite engine, to
    [NotImplementedError], which [freeze] raises too. *)
Theorem default_producer_unguarded q engine :
  _frozen_querystrings (self q) = None ->
  db (_meta (table (self q))) = Some engine ->
  engine_type engine = "postgres" \/ engine_type engine = "sqlite" ->
  (forall msg e,
      (if engine_type engine =? "postgres"
       then postgres_querystrings (__class__ q) (self q)
       else sqlite_querystrings (__class__ q) (self q))
      = Raise (mkExn NotImplementedError msg) ->
      default_querystrings (__class__ q) (self q) = Raise e ->
      querystrings q = Raise e /\ freeze q = Raise e)
  /\ (postgres_querystrings (__class__ q)
      = @Query_not_implemented W Clauses ->
      sqlite_querystrings (__class__ q) = @Query_not_implemented W Clauses ->
      default_querystrings (__class__ q) = @Query_not_implemented W Clauses ->
      querystrings q = Raise (mkExn NotImplementedError EmptyString)).
Proof.
  intros Hf Hdb Htag.
  assert (Hres : forall msg e,
             (if engine_type engine =? "postgres"
              then postgres_querystrings (__class__ q) (self q)
              else sqlite_querystrings (__class__ q) (self q))
             = Raise (mkExn NotImplementedError msg) ->
             default_querystrings (__class__ q) (self q) = Raise e ->
             querystrings q = Raise e).
  { intros msg e Hspec Hdef.
    unfold querystrings, Query_engine_type. rewrite Hf, Hdb. cbn.
    destruct Htag as [Ht | Ht]; rewrite Ht in *; cbn in *;
      rewrite Hspec; cbn; exact Hdef. }
  split.
  - intros msg e Hspec Hdef. split; [apply (Hres msg e Hspec Hdef) |].
    unfold freeze. rewrite (Hres msg e Hspec Hdef). reflexivity.
  - intros Hp Hs Hd.
    apply (Hres EmptyString).
    + rewrite Hp, Hs. destruct (engine_type engine =? "postgres");
        reflexivity.
    + rewrite Hd. reflexivity.
Qed.

(** X14.  Freezing the query inside a frozen query gives the same frozen
    query again, for a class whose constructor keeps the table and the
    querystrings it is given (as [Query.__init__] does). *)
Theorem freeze_idempotent q qs fq :
  querystrings q = Ok qs ->
  freeze q = Ok fq ->
  table (self (query fq)) = table (self q) ->
  _frozen_querystrings (self (query fq)) = Some qs ->
  freeze (query fq) = Ok fq.
Proof.
  intros Hqs Hfreeze Ht Hf.
  unfold freeze in Hfreeze. rewrite Hqs in Hfreeze. cbn in Hfreeze.
  injection Hfreeze as <-. cbn [query self __class__] in *.
  unfold freeze, querystrings. cbn [self __class__].
  rewrite Hf. cbn. rewrite Ht. reflexivity.
Qed.

(** X15.  What a frozen query sends to the engine are the statements that
    were resolved when it was frozen, in order: a prefix of them, and all
    of them when the run returns.  The producers are not asked again,
    whatever they would say of the fresh copy. *)
Theorem frozen_run_sends_resolved_statements q qs fq engine in_pool w :
  querystrings q = Ok qs ->
  freeze q = Ok fq ->
  table (self (query fq)) = table (self q) ->
  _frozen_querystrings (self (query fq)) = Some qs ->
  db (_meta (table (self q))) = Some engine ->
  let o := FrozenQuery_run dump_json fq (Some in_pool) w in
  (exists k,
      trace o = map (fun x => EvRunQuerystring x in_pool) (firstn k qs))
  /\ (forall v, result o = Ok v ->
        trace o = map (fun x => EvRunQuerystring x in_pool) qs).
Proof.
  intros _ _ Ht Hf Hdb. unfold FrozenQuery_run.
  apply (@run_resolved_trace W Clauses dump_json (query fq) in_pool
           engine qs w).
  - rewrite Ht. exact Hdb.
  - unfold querystrings. rewrite Hf. reflexivity.
Qed.

(** X16.  The string of a frozen query is the string of the query it was
    frozen from: the renderings of the resolved statements joined by a
    semicolon and a space. *)
Theorem str_survives_freeze q qs fq :
  querystrings q = Ok qs ->
  freeze q = Ok fq ->
  _frozen_querystrings (self (query fq)) = Some qs ->
  FrozenQuery___str__ QueryString___str__ fq
  = Query___str__ QueryString___str__ q
  /\ Query___str__ QueryString___str__ q
     = Ok (join "; " (map QueryString___str__ qs)).
Proof.
  intros Hqs _ Hf.
  unfold FrozenQuery___str__, Query___str__.
  rewrite Hqs. unfold querystrings. rewrite Hf. split; reflexivity.
Qed.

(** X17.  [FrozenQuery.__getattr__] never returns a value.  For a name
    that is not one of the five properties of [Query] it raises an
    [AttributeError] with one of its two messages; an exception of
    another class can only come from the getter of one of the five. *)
Theorem frozen_getattr_error_classes fq name :
  (forall v, FrozenQuery___getattr__ fq name <> Ok v)
  /\ (~ In name Query_properties ->
      exists present,
        FrozenQuery___getattr__ fq name
        = Raise (mkExn AttributeError (frozen_message present name)))
  /\ (forall e,
         FrozenQuery___getattr__ fq name = Raise e ->
         exc_class e <> AttributeError ->
         In name Query_properties).
Proof.
  assert (Hplain : ~ In name Query_properties ->
                   exists present,
                     FrozenQuery___getattr__ fq name
                     = Raise (mkExn AttributeError
                                (frozen_message present name))).
  { intros Hnot. unfold FrozenQuery___getattr__, hasattr.
    unfold Query_properties in Hnot. cbn [In] in Hnot.
    destruct (String.eqb_spec name "engine_type");
      [exfalso; apply Hnot; auto |].
    destruct (String.eqb_spec name "sqlite_querystrings");
      [exfalso; apply Hnot; auto |].
    destruct (String.eqb_spec name "postgres_querystrings");
      [exfalso; apply Hnot; auto |].
    destruct (String.eqb_spec name "default_querystrings");
      [exfalso; apply Hnot; auto 6 |].
    destruct (String.eqb_spec name "querystrings");
      [exfalso; apply Hnot; auto 7 |].
    destruct (name =? "output_delegate").
    { destruct (output_delegate _);
        [exists true | exists false]; reflexivity. }
    destruct (name =? "run_callback").
    { destruct (run_callback _); [exists true | exists false]; reflexivity. }
    destruct (mem name Query_attributes || mem name _);
      [exists true | exists false]; reflexivity. }
  split; [| split].
  - intros v. unfold FrozenQuery___getattr__.
    destruct (hasattr (query fq) name) as [[|] | e]; discriminate.
  - exact Hplain.
  - intros e He Hclass.
    destruct (in_dec string_dec name Query_properties) as [Hin | Hnot];
      [exact Hin |].
    destruct (Hplain Hnot) as [present Hp].
    rewrite Hp in He. injection He as <-.
    exfalso. apply Hclass. reflexivity.
Qed.

End FreezeEdges.

Lemma resolution_without_engine_witness :
  freeze (a_query SelectBand None None)
  = Raise (mkExn ValueError "Engine isn't defined.")
  /\ Query___str__ template
       (mkQuery (Query_class tt)
          (Query___init__ tt (Band None) (Some [select_band; count_band])))
     = Ok "SELECT name FROM band; SELECT count(id) FROM band".
Proof.
  split.
  - apply (proj1 (resolution_without_engine template
                    (a_query SelectBand None None) eq_refl) eq_refl).
  - apply (proj2 (resolution_without_engine template
                    (mkQuery (Query_class tt)
                       (Query___init__ tt (Band None)
                          (Some [select_band; count_band])))
                    eq_refl) [select_band; count_band] eq_refl).
Defined.

Lemma default_producer_unguarded_witness :
  querystrings
    (mkQuery (Query_class tt) (Query___init__ tt (Band (Some postgres)) None))
  = Raise (mkExn NotImplementedError EmptyString).
Proof.
  apply (proj2 (default_producer_unguarded
                  (mkQuery (Query_class tt)
                     (Query___init__ tt (Band (Some postgres)) None))
                  (engine := postgres) eq_refl eq_refl
                  (or_introl eq_refl)));
    reflexivity.
Defined.

Lemma freeze_idempotent_witness :
  exists fq,
    freeze (a_query SelectBand (Some postgres) None) = Ok fq
    /\ freeze (query fq) = Ok fq.
Proof.
  eexists. split; [reflexivity |].
  apply (freeze_idempotent (a_query SelectBand (Some postgres) None)
           (qs := [select_band]));
    reflexivity.
Defined.

Lemma frozen_run_sends_resolved_statements_witness :
  exists fq,
    freeze (a_query TwoStatements (Some postgres) None) = Ok fq
    /\ trace (FrozenQuery_run toy_json fq (Some false) 0)
       = [EvRunQuerystring select_band false;
          EvRunQuerystring count_band false].
Proof.
  eexists. split; [reflexivity |].
  apply (proj2 (frozen_run_sends_resolved_statements toy_json
                  (a_query TwoStatements (Some postgres) None)
                  (qs := [select_band; count_band]) (engine := postgres)
                  false 0 eq_refl eq_refl eq_refl eq_refl eq_refl)
           _ eq_refl).
Defined.

Lemma str_survives_freeze_witness :
  exists fq,
    freeze (a_query TwoStatements (Some postgres) None) = Ok fq
    /\ FrozenQuery___str__ template fq
       = Ok "SELECT name FROM band; SELECT count(id) FROM band".
Proof.
  eexists. split; [reflexivity |].
  destruct (str_survives_freeze template
              (a_query TwoStatements (Some postgres) None)
              (qs := [select_band; count_band])
              eq_refl eq_refl eq_refl) as [Hsame Hstr].
  rewrite Hsame. exact Hstr.
Defined.

Lemma frozen_getattr_error_classes_witness :
  exists present,
    FrozenQuery___getattr__
      (mkFrozenQuery (a_query SelectBand (Some postgres) None)) "limit"
    = Raise (mkExn AttributeError (frozen_message present "limit")).
Proof.
  apply (proj1 (proj2 (frozen_getattr_error_classes
                         (mkFrozenQuery
                            (a_query SelectBand (Some postgres) None))
                         "limit"))).
  cbn. intuition discriminate.
Defined.

(** ** The frozen wrapper's execution, and the precedence of the flags *)

(** X18.  [FrozenQuery.run_sync] asks for direct connections only, and
    [FrozenQuery.run] for what its caller says, pooled connections when
    the caller says nothing. *)
Theorem frozen_execution_pooling {W Clauses : Type}
    (dump_json : PyVal -> Result string) (fq : FrozenQuery W Clauses)
    (timed : bool) (extra in_pool : option bool) (w : W) :
  (forall x b,
      In (EvRunQuerystring x b)
         (trace (FrozenQuery_run_sync dump_json fq timed extra w)) ->
      b = false)
  /\ (forall x b,
         In (EvRunQuerystring x b)
            (trace (FrozenQuery_run dump_json fq in_pool w)) ->
         b = match in_pool with Some given => given | None => true end).
Proof.
  assert (Hcalls : forall flag x b,
             In (EvRunQuerystring x b)
                (trace (run dump_json (query fq) flag w)) ->
             b = flag).
  { intros flag x b Hin.
    pose proof (run_calls_with dump_json (query fq) flag w) as Hc.
    unfold calls_with in Hc. rewrite Forall_forall in Hc.
    destruct (Hc _ Hin) as [y Hy]. inversion Hy. reflexivity. }
  split.
  - intros x b. unfold FrozenQuery_run_sync, run_sync.
    destruct extra as [given |]; [intros [] |].
    destruct timed; [| apply Hcalls].
    unfold with_Timer, finally. cbn [trace emit result].
    intros Hin. apply in_app_or in Hin as [Hin | [Hin | []]];
      [apply (Hcalls false x b Hin) | discriminate Hin].
  - intros x b. unfold FrozenQuery_run. apply Hcalls.
Qed.

(** X19.  [as_objects] takes precedence: with it set, neither [as_list]
    nor [as_json] has any effect on the result, so that rows of several
    columns are never refused. *)
Theorem as_objects_takes_precedence {W Clauses : Type}
    (dump_json : PyVal -> Result string) (q q' : Query W Clauses)
    (output output' : OutputDelegate) (raw : PyVal) :
  table (self q) = table (self q') ->
  output_delegate (self q) = Some output ->
  output_delegate (self q') = Some output' ->
  as_objects (_output output) = true ->
  as_objects (_output output') = true ->
  shape dump_json q raw = shape dump_json q' raw.
Proof.
  intros Ht Ho Ho' Hobj Hobj'.
  unfold shape, table_call. rewrite Ho, Ho', Hobj, Hobj', Ht. reflexivity.
Qed.

Lemma as_objects_takes_precedence_witness :
  shape toy_json
    (a_query SelectBand (Some postgres) (Some (mkOutput true true true)))
    (VList [VDict [("name", VStr "a"); ("id", VInt 1)]])
  = Ok (VList [VObj "Band" [("name", VStr "a"); ("id", VInt 1)]]).
Proof.
  rewrite (@as_objects_takes_precedence nat unit toy_json
             (a_query SelectBand (Some postgres)
                (Some (mkOutput true true true)))
             (a_query SelectBand (Some postgres)
                (Some (mkOutput false false true)))
             (mkOutputDelegate (mkOutput true true true))
             (mkOutputDelegate (mkOutput false false true))
             (VList [VDict [("name", VStr "a"); ("id", VInt 1)]])
             eq_refl eq_refl eq_refl eq_refl eq_refl).
  reflexivity.
Defined.

Lemma frozen_execution_pooling_witness :
  In (EvRunQuerystring select_band false)
     (trace (FrozenQuery_run_sync toy_json
               (mkFrozenQuery (a_query SelectBand (Some postgres) None))
               true None 0))
  /\ ~ In (EvRunQuerystring select_band true)
          (trace (FrozenQuery_run_sync toy_json
                    (mkFrozenQuery (a_query SelectBand (Some postgres) None))
                    true None 0)).
Proof.
  split; [left; reflexivity |].
  intros Hin.
  apply (proj1 (@frozen_execution_pooling nat unit toy_json
                  (mkFrozenQuery (a_query SelectBand (Some postgres) None))
                  true None None 0)) in Hin.
  discriminate Hin.
Defined.
